(** * The production build script, [scripts/build.js]

    A shallow embedding of the build orchestrator: the required-files guard,
    the promise chain (measure, clean, copy, build, report), the decision
    policy inside [build], the rejection handler, the top-level catch and
    [getFilesTotalSize].

    What the script calls but does not define (react-dev-utils, fs-extra, bfj,
    webpack) is an oracle: the record [World] holds what each call answers on
    one run.  What the script does to the outside is a trace of [event]s. *)

From Stdlib Require Import ZArith Ascii String.
From stdpp Require Import gmap strings list fin_maps.

Local Open Scope string_scope.
Local Open Scope Z_scope.

(** ** JavaScript values the script handles *)

Module Js.

(** The line feed of the script's string literals. *)
Definition nl : string := String (ascii_of_nat 10) EmptyString.
Definition dquote : string := String (ascii_of_nat 34) EmptyString.

(** [xs.join(sep)] on an array of strings. *)
Definition join (sep : string) (xs : list string) : string :=
  String.concat sep xs.

(** Truthiness of a value that is a string or [undefined]: [undefined] and
    the empty string are falsy. *)
Definition truthy (v : option string) : bool :=
  match v with
  | None => false
  | Some s => negb (String.eqb s EmptyString)
  end.

(** [String(v)] for a string or [undefined]. *)
Definition to_string (v : option string) : string :=
  match v with
  | None => "undefined"
  | Some s => s
  end.

(** [c.toLowerCase()] on one code unit.  Only the letters A-Z are mapped:
    no character outside ASCII lower-cases to a letter of [false], so the
    comparison the script makes is decided by the ASCII letters alone. *)
Definition lower_ascii (c : ascii) : ascii :=
  let n := nat_of_ascii c in
  if (Nat.leb 65 n && Nat.leb n 90)%bool then ascii_of_nat (n + 32) else c.

Fixpoint toLowerCase (s : string) : string :=
  match s with
  | EmptyString => EmptyString
  | String c r => String (lower_ascii c) (toLowerCase r)
  end.

(** [xs.indexOf(x) !== -1]. *)
Definition includes (x : string) (xs : list string) : bool :=
  existsb (String.eqb x) xs.

(** A PostCSS node: rules have a selector, other nodes have none. *)
Record PostcssNode := { selector : option string }.

(** An error object: its [name], its [message] and, for errors coming out of
    the CSS pipeline, an own property [postcssNode]. *)
Record Error := {
  name : string;
  message : option string;
  postcssNode : option PostcssNode
}.

(** [new Error(msg)]. *)
Definition new_Error (msg : string) : Error :=
  {| name := "Error"; message := Some msg; postcssNode := None |}.

(** [Error.prototype.toString]. *)
Definition error_to_string (e : Error) : string :=
  let msg := match message e with None => EmptyString | Some m => m end in
  if String.eqb (name e) EmptyString then msg
  else if String.eqb msg EmptyString then name e
  else name e ++ ": " ++ msg.

(** [new Error(e)] with an error object as argument: the argument is
    converted to a string. *)
Definition new_Error_of (e : Error) : Error :=
  new_Error (error_to_string e).

(** A JSON value, as [stats.toJson()] returns one. *)
#[local] Unset Elimination Schemes.
Inductive Json :=
| JNull
| JBool (b : bool)
| JNum (n : Z)
| JStr (s : string)
| JArr (xs : list Json)
| JObj (fields : list (string * Json)).
#[local] Set Elimination Schemes.

End Js.

(** ** File sizes *)

(** What [measureFileSizesBeforeBuild] resolves with: the folder and a map
    from file name to size.  Sizes are byte counts, so integers. *)
Record FileSizes := {
  root : string;
  sizes : option (gmap string Z)
}.

(** [Object.keys(o)]. *)
Definition Object_keys (o : gmap string Z) : list string :=
  (map_to_list o).*1.

(** [o[k]] for a numeric property; an absent key reads [undefined], and adding
    it makes the sum NaN, which no key of [Object.keys(o)] does. *)
Definition prop (o : gmap string Z) (k : string) : Z :=
  default 0 (o !! k).

(** [getFilesTotalSize], build.js:211-219. *)
Definition getFilesTotalSize (files : FileSizes) : Z :=
  let result := 0 in
  match sizes files with
  | Some o => foldl (fun result el => result + prop o el) result (Object_keys o)
  | None => result
  end.

(** ** The outside world *)

(** [config/paths]: the five paths the script reads. *)
Record Paths := {
  appPath : string;
  appHtml : string;
  appIndexJs : string;
  appBuild : string;
  appPublic : string
}.

(** Errors and warnings, before or after [formatWebpackMessages]. *)
Record Messages := {
  errors : list string;
  warnings : list string
}.

(** The compiler's statistics object, seen through the two calls the script
    makes: [toJson()] and [toJson({ all: false, warnings: true, errors: true })]. *)
Record Stats := {
  toJson : Js.Json;
  toJson_messages : Messages
}.

(** One run of the script: the process's arguments and environment, and what
    each external call answers.  [None] in an [option Js.Error] field means the
    call returns (or its promise resolves); [Some e] means it throws (or its
    promise rejects) with [e]. *)
Record World := {
  paths : Paths;
  process_argv : list string;
  stdout_isTTY : bool;
  env_CI : option string;
  env_TSC_COMPILE_ON_ERROR : option string;
  file_exists : string -> bool;
  checkBrowsers : option Js.Error;
  measure_before : Js.Error + FileSizes;
  emptyDirSync : option Js.Error;
  copySync : option Js.Error;
  compiler_run : Js.Error + Stats;
  formatWebpackMessages : Messages -> Messages;
  bfj_write : string -> Js.Json -> option Js.Error;
  measure_after : Js.Error + FileSizes;
  printFileSizesAfterBuild : option Stats -> option Js.Error;
  printBuildError : Js.Error -> option Js.Error
}.

(** The logger's four functions, [config/logger.js]. *)
Inductive level := LLog | LInfo | LWarn | LError.

(** What the logger is given after the message and hands to [console.dir]. *)
Inductive arg :=
| AStr (s : string)
| AErr (e : Js.Error)
| APaths (html indexJs : string)
| ASettings (argv : list string) (isInteractive : bool)
| ATotalsKB (before_thousandths after_thousandths : Z).

(** What a run does to the outside, in order. *)
Inductive event :=
| Logged (l : level) (msg : string) (args : list arg)
| BlankLine
| BrowsersChecked (dir : string)
| Measured (dir : string)
| DirEmptied (dir : string)
| PublicCopied (src dst except : string)
| CompilerRun
| StatsWrite (path : string) (json : Js.Json)
| FileSizesPrinted (dir : string)
| BuildErrorPrinted (e : Js.Error).

(** ** Promises and the process, as a monad

    A computation leaves a trace and ends in one of four ways.  [Rejected] is
    a rejected promise (or an exception thrown inside a [then] handler),
    which the next rejection handler of the chain receives.  [Exited] is
    [process.exit(code)]: nothing runs after it.  [Escaped] is an exception
    thrown inside the compiler's completion callback: it is outside every
    promise of the script, so no handler of the chain sees it. *)

Inductive outcome (A : Type) :=
| Fulfilled (a : A)
| Rejected (e : Js.Error)
| Exited (code : Z)
| Escaped (e : Js.Error).

Arguments Fulfilled {A} a.
Arguments Rejected {A} e.
Arguments Exited {A} code.
Arguments Escaped {A} e.

Definition Run (A : Type) : Type := list event * outcome A.

Definition trace {A} (r : Run A) : list event := fst r.
Definition result {A} (r : Run A) : outcome A := snd r.

Definition resolve {A} (a : A) : Run A := ([], Fulfilled a).
Definition reject {A} (e : Js.Error) : Run A := ([], Rejected e).
Definition process_exit {A} (code : Z) : Run A := ([], Exited code).
Definition escape {A} (e : Js.Error) : Run A := ([], Escaped e).
Definition emit (ev : event) : Run unit := ([ev], Fulfilled tt).

(** Run [k] after [p], with the trace of [p] in front. *)
Definition prefixed {B} (t : list event) (k : Run B) : Run B :=
  ((t ++ fst k)%list, snd k).

(** [p.then(onFulfilled, onRejected)]. *)
Definition then2 {A B} (p : Run A) (onFulfilled : A -> Run B)
    (onRejected : Js.Error -> Run B) : Run B :=
  match p with
  | (t, Fulfilled a) => prefixed t (onFulfilled a)
  | (t, Rejected e) => prefixed t (onRejected e)
  | (t, Exited c) => (t, Exited c)
  | (t, Escaped e) => (t, Escaped e)
  end.

(** [p.then(onFulfilled)], and the sequencing of statements. *)
Definition then_ {A B} (p : Run A) (onFulfilled : A -> Run B) : Run B :=
  then2 p onFulfilled reject.

(** [p.catch(onRejected)]. *)
Definition catch_ {A} (p : Run A) (onRejected : Js.Error -> Run A) : Run A :=
  then2 p resolve onRejected.

(** Statements in sequence are written with stdpp's monad notations:
    [x ← p; k] is [then_ p (fun x => k)] and [p;; k] ignores the value. *)
#[global] Instance run_ret : MRet Run := @resolve.
#[global] Instance run_bind : MBind Run := fun A B k p => then_ p k.

(** A call that throws when the world says so. *)
Definition call (ev : event) (answer : option Js.Error) : Run unit :=
  emit ev;;
  match answer with
  | None => resolve tt
  | Some e => reject e
  end.

(** A call that returns a value or throws. *)
Definition call_with {A} (ev : event) (answer : Js.Error + A) : Run A :=
  emit ev;;
  match answer with
  | inr a => resolve a
  | inl e => reject e
  end.

(** The exit code of the process once the script's chain has settled.  With
    nothing left to do Node exits with 0; a rejection nobody handles goes to
    the script's [unhandledRejection] listener, which rethrows it, and Node
    exits with 1.  Of an exception that escaped inside the compiler the
    script decides nothing. *)
Definition exitCode {A} (r : Run A) : option Z :=
  match result r with
  | Fulfilled _ => Some 0
  | Rejected _ => Some 1
  | Exited c => Some c
  | Escaped _ => None
  end.

(** ** The logger, [config/logger.js] *)

Definition log (msg : string) (args : list arg) : Run unit :=
  emit (Logged LLog msg args).
Definition info (msg : string) (args : list arg) : Run unit :=
  emit (Logged LInfo msg args).
Definition warn (msg : string) (args : list arg) : Run unit :=
  emit (Logged LWarn msg args).
Definition error (msg : string) (args : list arg) : Run unit :=
  emit (Logged LError msg args).

(** ** The script, [scripts/build.js] *)

(** [checkRequiredFiles] of react-dev-utils: true when every file of the list
    can be accessed. *)
Definition checkRequiredFiles (w : World) (files : list string) : bool :=
  forallb (file_exists w) files.

(** [const argv = process.argv.slice(2)], build.js:51. *)
Definition argv (w : World) : list string := drop 2 (process_argv w).

(** [const writeStatsJson = argv.indexOf('--stats') !== -1], build.js:52. *)
Definition writeStatsJson (w : World) : bool := Js.includes "--stats" (argv w).

Definition isInteractive (w : World) : bool := stdout_isTTY w.

(** [process.env.TSC_COMPILE_ON_ERROR === 'true'], build.js:112. *)
Definition tscCompileOnError (w : World) : bool :=
  match env_TSC_COMPILE_ON_ERROR w with
  | Some s => String.eqb s "true"
  | None => false
  end.

(** The first two conjuncts of the condition at build.js:173-175:
    [process.env.CI && (typeof process.env.CI !== 'string' ||
    process.env.CI.toLowerCase() !== 'false')]. *)
Definition treatWarningsAsErrors (w : World) : bool :=
  Js.truthy (env_CI w) &&
  match env_CI w with
  | None => true
  | Some s => negb (String.eqb (Js.toLowerCase s) "false")
  end.

(** What [build] resolves with, build.js:186-190.  [stats] is [undefined] when
    the compiler answered with an error. *)
Record ResolveArgs := {
  stats : option Stats;
  previousFileSizes : FileSizes;
  ra_warnings : list string
}.

(** [errMessage], build.js:146-153: the message of the compiler's error, with
    one more line for a PostCSS error. *)
Definition errMessage (err : Js.Error) : string :=
  let errMessage := Js.to_string (Js.message err) in
  match Js.postcssNode err with
  | Some node =>
      errMessage ++ Js.nl ++ "CompileError: Begins at CSS selector "
        ++ Js.to_string (Js.selector node)
  | None => errMessage
  end.

(** The messages handed to [formatWebpackMessages], build.js:155-162. *)
Definition rawMessages (r : Js.Error + Stats) : Messages :=
  match r with
  | inl err => {| errors := [errMessage err]; warnings := [] |}
  | inr stats => toJson_messages stats
  end.

Definition stats_of (r : Js.Error + Stats) : option Stats :=
  match r with
  | inl _ => None
  | inr stats => Some stats
  end.

Definition bundleStatsPath (w : World) : string :=
  appBuild (paths w) ++ "/bundle-stats.json".

(** [xs.length = 1] on an array with more than one element. *)
Definition truncate1 (xs : list string) : list string := take 1 xs.

(** The second half of the callback given to [compiler.run],
    build.js:164-199: what the promise of [build] settles with, given the
    formatted messages. *)
Definition settle (w : World) (previousFileSizes : FileSizes)
    (stats : option Stats) (messages : Messages) : Run ResolveArgs :=
  if (0 <? length (errors messages))%nat then
    let errors :=
      if (1 <? length (errors messages))%nat then truncate1 (errors messages)
      else errors messages in
    reject (Js.new_Error (Js.join (Js.nl ++ Js.nl) errors))
  else if treatWarningsAsErrors w && (0 <? length (warnings messages))%nat then
    warn (Js.nl ++ "Treating warnings as errors because process.env.CI = true."
            ++ Js.nl ++ "Most CI servers set it automatically." ++ Js.nl) [];;
    reject (Js.new_Error (Js.join (Js.nl ++ Js.nl) (warnings messages)))
  else
    let resolveArgs :=
      {| stats := stats;
         previousFileSizes := previousFileSizes;
         ra_warnings := warnings messages |} in
    if writeStatsJson w then
      match stats with
      | None =>
          escape {| Js.name := "TypeError";
                    Js.message := Some "Cannot read properties of undefined";
                    Js.postcssNode := None |}
      | Some stats =>
          emit (StatsWrite (bundleStatsPath w) (toJson stats));;
          match bfj_write w (bundleStatsPath w) (toJson stats) with
          | None => resolve resolveArgs
          | Some error => reject (Js.new_Error_of error)
          end
      end
    else resolve resolveArgs.

(** The callback given to [compiler.run], build.js:138-200: an error without
    a message rejects at once, anything else is formatted and settled. *)
Definition onCompiled (w : World) (previousFileSizes : FileSizes)
    (r : Js.Error + Stats) : Run ResolveArgs :=
  messages ←
    match r with
    | inl err =>
        if negb (Js.truthy (Js.message err)) then
          error "Unknown error" [AErr err];; reject err
        else resolve (formatWebpackMessages w (rawMessages r))
    | inr _ => resolve (formatWebpackMessages w (rawMessages r))
    end;
  settle w previousFileSizes (stats_of r) messages.

(** [build], build.js:132-202: the compiler runs once and its answer goes to
    the callback.  [webpack(config)] is taken to return a compiler: the
    world has no answer in which it refuses the configuration. *)
Definition build (w : World) (previousFileSizes : FileSizes) : Run ResolveArgs :=
  info "Creating an optimized production build..." [];;
  emit CompilerRun;;
  onCompiled w previousFileSizes (compiler_run w).

(** [copyPublicFolder], build.js:204-209. *)
Definition copyPublicFolder (w : World) : Run unit :=
  call (PublicCopied (appPublic (paths w)) (appBuild (paths w)) (appHtml (paths w)))
       (copySync w).

(** The fulfilment handler of the chain, build.js:76-110. *)
Definition onBuilt (w : World) (args : ResolveArgs) : Run unit :=
  let warnings := ra_warnings args in
  (if (0 <? length warnings)%nat then
     warn ("Compiled with warnings." ++ Js.nl)
          [AStr (Js.join (Js.nl ++ Js.nl) warnings)];;
     emit BlankLine;;
     warn (Js.nl ++ "Search for the " ++ "keywords"
             ++ " to learn more about each warning.") [];;
     info ("To ignore, add " ++ Js.dquote ++ "// eslint-disable-next-line"
             ++ Js.dquote ++ "  to the line before." ++ Js.nl) []
   else info ("Compiled successfully." ++ Js.nl) []);;
  let before := getFilesTotalSize (previousFileSizes args) in
  newFiles ← call_with (Measured (appBuild (paths w))) (measure_after w);
  let after := getFilesTotalSize newFiles in
  info "Total sizes, KB:" [ATotalsKB before after];;
  log ("File sizes after gzip:" ++ Js.nl) [];;
  call (FileSizesPrinted (appBuild (paths w)))
       (printFileSizesAfterBuild w (stats args));;
  emit BlankLine.

(** The rejection handler of the chain, build.js:111-124. *)
Definition onFailed (w : World) (err : Js.Error) : Run unit :=
  if tscCompileOnError w then
    warn ("Compiled with the following type errors (you may want to check these before deploying your app):"
            ++ Js.nl) [];;
    call (BuildErrorPrinted err) (printBuildError w err)
  else
    error ("Failed to compile." ++ Js.nl) [];;
    call (BuildErrorPrinted err) (printBuildError w err);;
    process_exit 1.

(** The top-level catch, build.js:126-129. *)
Definition onUncaught (err : Js.Error) : Run unit :=
  error (if Js.truthy (Js.message err) then Js.to_string (Js.message err)
         else "Undefined error") [AErr err];;
  process_exit 1.

(** The chain up to [build], build.js:60-74: check the browsers, measure the
    build folder, empty it, copy the public folder, build. *)
Definition pipeline (w : World) : Run ResolveArgs :=
  then_
    (then_ (call (BrowsersChecked (appPath (paths w))) (checkBrowsers w))
           (fun _ =>
              call_with (Measured (appBuild (paths w))) (measure_before w)))
    (fun previousFileSizes =>
       call (DirEmptied (appBuild (paths w))) (emptyDirSync w);;
       copyPublicFolder w;;
       build w previousFileSizes).

(** The two handlers on the pipeline, build.js:75-125. *)
Definition handled (w : World) : Run unit :=
  then2 (pipeline w) (onBuilt w) (onFailed w).

(** The promise chain, build.js:60-129. *)
Definition chain (w : World) : Run unit :=
  catch_ (handled w) onUncaught.

(** The whole script, from the required-files guard on. *)
Definition main (w : World) : Run unit :=
  if negb (checkRequiredFiles w [appHtml (paths w); appIndexJs (paths w)]) then
    error "Either fields are missing:"
          [APaths (appHtml (paths w)) (appIndexJs (paths w))];;
    process_exit 1
  else
    info "Build server settings:" [ASettings (argv w) (isInteractive w)];;
    chain w.

(** How many times the compiler ran. *)
Definition is_CompilerRun (ev : event) : bool :=
  match ev with
  | CompilerRun => true
  | _ => false
  end.

Definition compilerRuns (t : list event) : nat :=
  length (List.filter is_CompilerRun t).

(** The stats files the run asked bfj to write: path and content. *)
Definition statsWrites (t : list event) : list (string * Js.Json) :=
  omap (fun ev => match ev with
                  | StatsWrite path json => Some (path, json)
                  | _ => None
                  end) t.

(** ** Sample worlds *)

Module Sample.

Definition app_paths : Paths :=
  {| appPath := "/app";
     appHtml := "/app/public/index.html";
     appIndexJs := "/app/src/index.tsx";
     appBuild := "/app/build";
     appPublic := "/app/public" |}.

Definition before : FileSizes :=
  {| root := "/app/build";
     sizes := Some (<["a" := 100]> (<["b" := 200]> ∅)) |}.

Definition after : FileSizes :=
  {| root := "/app/build";
     sizes := Some (<["a" := 150]> (<["b" := 150]> ∅)) |}.

Definition unmeasured : FileSizes :=
  {| root := "/app/build"; sizes := None |}.

Definition stats (es ws : list string) : Stats :=
  {| toJson := Js.JObj [("errors", Js.JArr (Js.JStr <$> es));
                        ("warnings", Js.JArr (Js.JStr <$> ws))];
     toJson_messages := {| errors := es; warnings := ws |} |}.

(** A run where every file is there, nothing throws, the compiler answers
    [r] and the formatter leaves the messages as they are. *)
Definition world (args : list string) (ci tsc : option string)
    (r : Js.Error + Stats) : World :=
  {| paths := app_paths;
     process_argv := "node" :: "scripts/build.js" :: args;
     stdout_isTTY := false;
     env_CI := ci;
     env_TSC_COMPILE_ON_ERROR := tsc;
     file_exists := fun _ => true;
     checkBrowsers := None;
     measure_before := inr before;
     emptyDirSync := None;
     copySync := None;
     compiler_run := r;
     formatWebpackMessages := fun m => m;
     bfj_write := fun _ _ => None;
     measure_after := inr after;
     printFileSizesAfterBuild := fun _ => None;
     printBuildError := fun _ => None |}.

(** The same run, but bfj fails to write the stats file. *)
Definition world_disk_full (args : list string) (ci tsc : option string)
    (r : Js.Error + Stats) (e : Js.Error) : World :=
  {| paths := app_paths;
     process_argv := "node" :: "scripts/build.js" :: args;
     stdout_isTTY := false;
     env_CI := ci;
     env_TSC_COMPILE_ON_ERROR := tsc;
     file_exists := fun _ => true;
     checkBrowsers := None;
     measure_before := inr before;
     emptyDirSync := None;
     copySync := None;
     compiler_run := r;
     formatWebpackMessages := fun m => m;
     bfj_write := fun _ _ => Some e;
     measure_after := inr after;
     printFileSizesAfterBuild := fun _ => None;
     printBuildError := fun _ => None |}.

(** A run where the build folder cannot be emptied. *)
Definition world_locked (tsc : option string) (e : Js.Error) : World :=
  {| paths := app_paths;
     process_argv := ["node"; "scripts/build.js"];
     stdout_isTTY := false;
     env_CI := None;
     env_TSC_COMPILE_ON_ERROR := tsc;
     file_exists := fun _ => true;
     checkBrowsers := None;
     measure_before := inr before;
     emptyDirSync := Some e;
     copySync := None;
     compiler_run := inr (stats [] []);
     formatWebpackMessages := fun m => m;
     bfj_write := fun _ _ => None;
     measure_after := inr after;
     printFileSizesAfterBuild := fun _ => None;
     printBuildError := fun _ => None |}.

(** A run where the size report throws after a clean build. *)
Definition world_report_throws (e : Js.Error) : World :=
  {| paths := app_paths;
     process_argv := ["node"; "scripts/build.js"];
     stdout_isTTY := false;
     env_CI := None;
     env_TSC_COMPILE_ON_ERROR := None;
     file_exists := fun _ => true;
     checkBrowsers := None;
     measure_before := inr before;
     emptyDirSync := None;
     copySync := None;
     compiler_run := inr (stats [] []);
     formatWebpackMessages := fun m => m;
     bfj_write := fun _ _ => None;
     measure_after := inr after;
     printFileSizesAfterBuild := fun _ => Some e;
     printBuildError := fun _ => None |}.

(** A run where only the files of [present] exist. *)
Definition world_files (present : list string) : World :=
  {| paths := app_paths;
     process_argv := ["node"; "scripts/build.js"];
     stdout_isTTY := false;
     env_CI := None;
     env_TSC_COMPILE_ON_ERROR := None;
     file_exists := fun f => Js.includes f present;
     checkBrowsers := None;
     measure_before := inr before;
     emptyDirSync := None;
     copySync := None;
     compiler_run := inr (stats [] []);
     formatWebpackMessages := fun m => m;
     bfj_write := fun _ _ => None;
     measure_after := inr after;
     printFileSizesAfterBuild := fun _ => None;
     printBuildError := fun _ => None |}.

(** A run where the formatter hands back no message at all, whatever it
    is given. *)
Definition world_mute (args : list string) (r : Js.Error + Stats) : World :=
  {| paths := app_paths;
     process_argv := "node" :: "scripts/build.js" :: args;
     stdout_isTTY := false;
     env_CI := None;
     env_TSC_COMPILE_ON_ERROR := None;
     file_exists := fun _ => true;
     checkBrowsers := None;
     measure_before := inr before;
     emptyDirSync := None;
     copySync := None;
     compiler_run := r;
     formatWebpackMessages := fun _ => {| errors := []; warnings := [] |};
     bfj_write := fun _ _ => None;
     measure_after := inr after;
     printFileSizesAfterBuild := fun _ => None;
     printBuildError := fun _ => None |}.

Definition boom : Js.Error :=
  {| Js.name := "Error"; Js.message := Some "boom"; Js.postcssNode := None |}.

Definition eacces : Js.Error :=
  {| Js.name := "Error";
     Js.message := Some "EACCES: permission denied";
     Js.postcssNode := None |}.

Definition silent : Js.Error :=
  {| Js.name := "Error"; Js.message := None; Js.postcssNode := None |}.

Definition css : Js.Error :=
  {| Js.name := "CssSyntaxError";
     Js.message := Some "Unknown word";
     Js.postcssNode := Some {| Js.selector := Some ".App-header" |} |}.

End Sample.



(** The pipeline gets as far as [build]: the required files are there and
    none of the four steps before [build] throws. *)
Definition reachesBuild (w : World) : bool :=
  checkRequiredFiles w [appHtml (paths w); appIndexJs (paths w)]
  && match checkBrowsers w, measure_before w, emptyDirSync w, copySync w with
     | None, inr _, None, None => true
     | _, _, _, _ => false
     end.

(** The events of the first four steps. *)
Definition preamble (w : World) : list event :=
  [BrowsersChecked (appPath (paths w));
   Measured (appBuild (paths w));
   DirEmptied (appBuild (paths w));
   PublicCopied (appPublic (paths w)) (appBuild (paths w)) (appHtml (paths w))].

(** The report of the required-files guard. *)
Definition is_configError (ev : event) : bool :=
  match ev with
  | Logged LError _ [APaths _ _] => true
  | _ => false
  end.

Definition is_StatsWrite (ev : event) : bool :=
  match ev with
  | StatsWrite _ _ => true
  | _ => false
  end.

Definition noConfigError (ev : event) : Prop := is_configError ev = false.
Definition noStatsWrite (ev : event) : Prop := is_StatsWrite ev = false.

(** The messages the script logs at error level. *)
Definition errorsLogged (t : list event) : list string :=
  omap (fun ev => match ev with
                  | Logged LError msg _ => Some msg
                  | _ => None
                  end) t.

(** The sum of a list of sizes. *)
Definition sum_sizes (xs : list Z) : Z := foldr Z.add 0 xs.

(** ** Events a run must not repeat or must not reach *)

Definition noCompilerRun (ev : event) : Prop := is_CompilerRun ev = false.

(** The two steps that change the build folder. *)
Definition is_destructive (ev : event) : bool :=
  match ev with
  | DirEmptied _ | PublicCopied _ _ _ => true
  | _ => false
  end.

Definition noDestruction (ev : event) : Prop := is_destructive ev = false.

(** The events up to and including the one compiler run. *)
Definition upToCompiler (w : World) : list event :=
  (Logged LInfo "Build server settings:" [ASettings (argv w) (isInteractive w)]
   :: preamble w
   ++ [Logged LInfo "Creating an optimized production build..." [];
       CompilerRun])%list.

(** A computation that, when it ends the process itself, does so with
    exit code 1. *)
Definition exitsWith1 {A} (r : Run A) : Prop :=
  ∀ c, result r = Exited c → c = 1.

(** * The production configuration, [config/webpack.prod.config.js] *)

Module Config.

(** [s.endsWith(suffix)] and [s.startsWith(prefix)]. *)
Definition endsWith (s suffix : string) : bool :=
  bool_decide (list_ascii_of_string suffix `suffix_of` list_ascii_of_string s).

Definition startsWith (s prefix : string) : bool := String.prefix prefix s.

(** What the module reads from the process and from [config/paths], and the
    two lookups it leaves to Node: [require.resolve] and [path.relative]. *)
Record Env := {
  NODE_ENV : option string;
  GENERATE_SOURCEMAP : option string;
  publicUrlOrPath : string;
  appSrc : string;
  require_resolve : string → string;
  MiniCssExtractPlugin_loader : string;
  path_relative : string → string → string
}.

(** [process.env.NODE_ENV === 'production'], line 31. *)
Definition isProduction (e : Env) : bool :=
  match NODE_ENV e with
  | Some s => String.eqb s "production"
  | None => false
  end.

(** [Boolean(process.env.GENERATE_SOURCEMAP)], line 32. *)
Definition shouldUseSourceMap (e : Env) : bool :=
  Js.truthy (GENERATE_SOURCEMAP e).

(** ** Style loaders, lines 60-121 *)

(** The options object given to css-loader; [modules] says whether the
    object has a [modules] property. *)
Record CssOptions := {
  importLoaders : nat;
  sourceMap : bool;
  modules : bool
}.

Inductive PostcssPlugin :=
| FlexbugsFixes
| PresetEnv (flexbox : string) (stage : Z)
| Normalize.

(** The options of one entry of a [use] array. *)
Inductive Options :=
| OMiniCss (publicPath : option string)
| OCss (cssOptions : CssOptions)
| OPostcss (ident : string) (plugins : list PostcssPlugin) (sourceMap : bool)
| OResolveUrl (sourceMap : bool) (root : string)
| OPreProcessor (sourceMap : bool)
| OBabel (presets : list string).

Record Loader := {
  loader : string;
  options : Options
}.

(** [xs.filter(Boolean)] on an array whose entries are objects or [false]. *)
Definition filterBoolean {A} (xs : list (option A)) : list A := omap id xs.

(** [getStyleLoaders(cssOptions, preProcessor = '')]. *)
Definition getStyleLoaders (e : Env) (cssOptions : CssOptions)
    (preProcessor : string) : list Loader :=
  let loaders :=
    filterBoolean
      [ if isProduction e then
          Some {| loader := MiniCssExtractPlugin_loader e;
                  options := OMiniCss (if startsWith (publicUrlOrPath e) "."
                                       then Some "../../" else None) |}
        else None;
        Some {| loader := require_resolve e "css-loader";
                options := OCss cssOptions |};
        Some {| loader := require_resolve e "postcss-loader";
                options :=
                  OPostcss "postcss"
                    [FlexbugsFixes; PresetEnv "no-2009" 3; Normalize]
                    (if isProduction e then shouldUseSourceMap e else false) |}
      ] in
  if Js.truthy (Some preProcessor) then
    (loaders
     ++ [ {| loader := require_resolve e "resolve-url-loader";
             options := OResolveUrl
                          (if isProduction e then shouldUseSourceMap e
                           else false)
                          (appSrc e) |};
          {| loader := require_resolve e preProcessor;
             options := OPreProcessor true |} ])%list
  else loaders.

(** ** Rules, lines 124-204 and 390-409 *)

(** The regular expressions of the module, each by what it accepts: a
    choice of literal endings anchored at the end of the input (with or
    without the [i] flag), or a literal to be found anywhere. *)
Inductive Regex :=
| Ending (ignoreCase : bool) (endings : list string)
| Containing (literal : string).

Definition regex_test (re : Regex) (s : string) : bool :=
  match re with
  | Ending ignoreCase endings =>
      existsb (endsWith (if ignoreCase then Js.toLowerCase s else s)) endings
  | Containing literal =>
      match String.index 0 literal s with
      | Some _ => true
      | None => false
      end
  end.

Definition cssRegex : Regex := Ending false [".css"].
Definition cssModuleRegex : Regex := Ending false [".module.css"].
Definition sassRegex : Regex := Ending false [".scss"; ".sass"].
Definition sassModuleRegex : Regex :=
  Ending false [".module.scss"; ".module.sass"].

Record Rule := {
  test : list Regex;
  exclude : list Regex;
  use : list Loader;
  type : option string;
  sideEffects : option bool
}.

Definition rules (e : Env) : list Rule :=
  [ {| test := [Ending false [".avif"]]; exclude := []; use := [];
       type := Some "asset/inline"; sideEffects := None |};
    {| test := [Ending false [".bmp"]; Ending false [".gif"];
                Ending false [".jpg"; ".jpeg"]; Ending false [".png"]];
       exclude := []; use := [];
       type := Some "asset/inline"; sideEffects := None |};
    {| test := [cssRegex]; exclude := [cssModuleRegex];
       use := getStyleLoaders e
                {| importLoaders := 1;
                   sourceMap := if isProduction e then shouldUseSourceMap e
                                else false;
                   modules := false |} EmptyString;
       type := None; sideEffects := Some true |};
    {| test := [cssModuleRegex]; exclude := [];
       use := getStyleLoaders e
                {| importLoaders := 1;
                   sourceMap := if isProduction e then shouldUseSourceMap e
                                else false;
                   modules := true |} EmptyString;
       type := None; sideEffects := None |};
    {| test := [sassRegex]; exclude := [sassModuleRegex];
       use := getStyleLoaders e
                {| importLoaders := 3;
                   sourceMap := if isProduction e then shouldUseSourceMap e
                                else false;
                   modules := false |} "sass-loader";
       type := None; sideEffects := Some true |};
    {| test := [sassModuleRegex]; exclude := [];
       use := getStyleLoaders e
                {| importLoaders := 3;
                   sourceMap := if isProduction e then shouldUseSourceMap e
                                else false;
                   modules := true |} "sass-loader";
       type := None; sideEffects := None |};
    {| test := [];
       exclude := [Ending false [".js"; ".mjs"; ".jsx"; ".ts"; ".tsx"];
                   Ending false [".html"]; Ending false [".json"];
                   Ending false [".scss"]; Ending false [".css"]];
       use := []; type := Some "asset/resource"; sideEffects := None |} ].

(** [config.module.rules]: the Babel rule, then [rules]. *)
Definition module_rules (e : Env) : list Rule :=
  {| test := [Ending true [".ts"; ".js"; ".tsx"; ".jsx"]];
     exclude := [Containing "node_modules"];
     use := [ {| loader := "babel-loader";
                 options := OBabel ["@babel/preset-env"; "@babel/preset-react";
                                    "@babel/preset-typescript"] |} ];
     type := None; sideEffects := None |}
  :: rules e.

(** How webpack reads [test] and [exclude]: a rule applies to a resource
    when a test condition holds (or there is none) and no exclude condition
    does. *)
Definition applies (r : Rule) (resource : string) : bool :=
  match test r with
  | [] => true
  | conditions => existsb (fun re => regex_test re resource) conditions
  end
  && negb (existsb (fun re => regex_test re resource) (exclude r)).

(** The position of css-loader in a [use] array. *)
Definition is_cssLoader (l : Loader) : bool :=
  match options l with
  | OCss _ => true
  | _ => false
  end.

(** ** The asset manifest, lines 254-267 *)

(** A file as webpack-manifest-plugin describes it. *)
Record FileDescriptor := {
  name : option string;
  path : string
}.

Record Entrypoints := {
  main : option (list string)
}.

(** The manifest's [files] is a plain object: the map holds its own
    properties. *)
Record Manifest := {
  files : gmap string string;
  entrypoints : list string
}.

(** [manifest[key] = value] on a plain object, for a string [value]: the
    assignment makes or replaces an own property, except under the key
    [__proto__], where it reaches the setter of [Object.prototype], which
    ignores a string and stores nothing. *)
Definition assign (manifest : gmap string string) (key value : string)
    : gmap string string :=
  if String.eqb key "__proto__" then manifest else <[key := value]> manifest.

(** [file.name || '']. *)
Definition fileKey (file : FileDescriptor) : string :=
  if Js.truthy (name file) then Js.to_string (name file) else EmptyString.

(** The reduction over [files], which starts from [seed]. *)
Definition manifestFiles (seed : gmap string string)
    (files : list FileDescriptor) : gmap string string :=
  foldl (fun manifest file => assign manifest (fileKey file) (path file))
        seed files.

(** The [generate] option.  Reading [entrypoints.main.filter] throws when
    there is no entrypoint called [main]. *)
Definition generate (seed : gmap string string) (files : list FileDescriptor)
    (entrypoints : Entrypoints) : Js.Error + Manifest :=
  let manifestFiles := manifestFiles seed files in
  match main entrypoints with
  | None =>
      inl {| Js.name := "TypeError";
             Js.message := Some "Cannot read properties of undefined";
             Js.postcssNode := None |}
  | Some main =>
      let entrypointFiles :=
        List.filter (fun fileName => negb (endsWith fileName ".map")) main in
      inr {| files := manifestFiles; entrypoints := entrypointFiles |}
  end.

(** ** Source-map file names, lines 294-297 *)

Definition backslash : ascii := ascii_of_nat 92.
Definition slash : ascii := ascii_of_nat 47.

(** [s.replace(/\\/g, '/')]. *)
Fixpoint replaceBackslashes (s : string) : string :=
  match s with
  | EmptyString => EmptyString
  | String c r =>
      String (if Ascii.eqb c backslash then slash else c)
             (replaceBackslashes r)
  end.

Definition devtoolModuleFilenameTemplate (e : Env)
    (absoluteResourcePath : string) : string :=
  replaceBackslashes (path_relative e (appSrc e) absoluteResourcePath).

(** ** The minifier, line 339 *)

(** [parallel: process.env.CI ? false : true], given the value of the
    variable. *)
Definition terser_parallel (CI : option string) : bool :=
  if Js.truthy CI then false else true.

End Config.

(** * The development-server script

    The second script of the repository: it checks the same two required
    files, reads its settings from the environment, looks for a free port
    and starts webpack-dev-server.  It has its own events and its own
    oracle; promises are as in the build script. *)

Module Start.

(** What [prepareUrls] returns, as far as the script reads it. *)
Record Urls := {
  lanUrlForConfig : option string;
  localUrlForBrowser : string
}.

(** One run of the script.  [parseInt] is JavaScript's, in base 10, with
    [None] for [NaN]; [choosePort] resolves with a port or with [null]. *)
Record World := {
  paths : Paths;
  appPackageJson_name : option string;
  stdout_isTTY : bool;
  env_TSC_COMPILE_ON_ERROR : option string;
  env_HTTPS : option string;
  env_PORT : option string;
  env_HOST : option string;
  env_CI : option string;
  FAST_REFRESH : bool;
  react_version : string;
  semver_lt : string → string → bool;
  parseInt : string → option Z;
  file_exists : string → bool;
  checkBrowsers : option Js.Error;
  choosePort : Js.Error + option Z;
  prepareUrls : Js.Error + Urls;
  createCompiler : option Js.Error;
  prepareProxy : option Js.Error;
  createDevServerConfig : option Js.Error;
  new_WebpackDevServer : option Js.Error;
  listen : option Js.Error
}.

Inductive arg :=
| AErr (e : Js.Error)
| APaths (html indexJs : string)
| ASettings (tscCompileOnError : bool) (protocol : string)
            (DEFAULT_PORT : option Z) (HOST : string) (isInteractive : bool).

Inductive event :=
| Logged (l : level) (msg : string) (args : list arg)
| BrowsersChecked (dir : string) (isInteractive : bool)
| PortChosen (host : string) (defaultPort : option Z)
| UrlsPrepared (protocol host : string) (port : Z)
| CompilerCreated (appName : option string) (tscCompileOnError : bool)
| ProxyPrepared
| ServerConfigured (lanUrl : option string)
| ServerCreated
| ListenRequested (port : Z) (host : string)
| HandlerRegistered (on : string)
| ConsoleCleared
| BrowserOpened (url : string)
| ServerClosed.

(** ** Promises over these events *)

Definition Run (A : Type) : Type := list event * outcome A.

Definition trace {A} (r : Run A) : list event := fst r.
Definition result {A} (r : Run A) : outcome A := snd r.

Definition resolve {A} (a : A) : Run A := ([], Fulfilled a).
Definition reject {A} (e : Js.Error) : Run A := ([], Rejected e).
Definition process_exit {A} (code : Z) : Run A := ([], Exited code).
Definition emit (ev : event) : Run unit := ([ev], Fulfilled tt).

Definition then2 {A B} (p : Run A) (onFulfilled : A → Run B)
    (onRejected : Js.Error → Run B) : Run B :=
  match p with
  | (t, Fulfilled a) => ((t ++ fst (onFulfilled a))%list, snd (onFulfilled a))
  | (t, Rejected e) => ((t ++ fst (onRejected e))%list, snd (onRejected e))
  | (t, Exited c) => (t, Exited c)
  | (t, Escaped e) => (t, Escaped e)
  end.

Definition then_ {A B} (p : Run A) (onFulfilled : A → Run B) : Run B :=
  then2 p onFulfilled reject.

Definition catch_ {A} (p : Run A) (onRejected : Js.Error → Run A) : Run A :=
  then2 p resolve onRejected.

#[global] Instance run_ret : MRet Run := @resolve.
#[global] Instance run_bind : MBind Run := fun A B k p => then_ p k.

Definition call (ev : event) (answer : option Js.Error) : Run unit :=
  emit ev;;
  match answer with
  | None => resolve tt
  | Some e => reject e
  end.

Definition call_with {A} (ev : event) (answer : Js.Error + A) : Run A :=
  emit ev;;
  match answer with
  | inr a => resolve a
  | inl e => reject e
  end.

(** ** The logger.  [log] is also called without a message, and then writes
    [undefined]: the logger concatenates the message with a space.  The
    styling that chalk adds to a message is left out. *)

Definition log (message : option string) (args : list arg) : Run unit :=
  emit (Logged LLog (Js.to_string message) args).
Definition info (message : string) (args : list arg) : Run unit :=
  emit (Logged LInfo message args).
Definition warn (message : string) (args : list arg) : Run unit :=
  emit (Logged LWarn message args).
Definition error (message : string) (args : list arg) : Run unit :=
  emit (Logged LError message args).

(** ** Settings, lines 50-54 *)

(** [Boolean(process.env.TSC_COMPILE_ON_ERROR)]. *)
Definition tscCompileOnError (w : World) : bool :=
  Js.truthy (env_TSC_COMPILE_ON_ERROR w).

(** [Boolean(process.env.HTTPS) ? 'https' : 'http']. *)
Definition protocol (w : World) : string :=
  if Js.truthy (env_HTTPS w) then "https" else "http".

(** [parseInt(process.env.PORT || '5678', 10)]. *)
Definition DEFAULT_PORT (w : World) : option Z :=
  parseInt w (if Js.truthy (env_PORT w) then Js.to_string (env_PORT w)
              else "5678").

(** [process.env.HOST || '0.0.0.0']. *)
Definition HOST (w : World) : string :=
  if Js.truthy (env_HOST w) then Js.to_string (env_HOST w) else "0.0.0.0".

Definition isInteractive (w : World) : bool := stdout_isTTY w.

Definition checkRequiredFiles (w : World) (files : list string) : bool :=
  forallb (file_exists w) files.

(** ** The chain, lines 81-162 *)

(** The rest of the second [then] handler once a port is there,
    lines 93-156. *)
Definition serve (w : World) (port : Z) : Run Urls :=
  urls ← call_with (UrlsPrepared (protocol w) (HOST w) port) (prepareUrls w);
  call (CompilerCreated (appPackageJson_name w) (tscCompileOnError w))
       (createCompiler w);;
  call ProxyPrepared (prepareProxy w);;
  call (ServerConfigured (lanUrlForConfig urls)) (createDevServerConfig w);;
  call ServerCreated (new_WebpackDevServer w);;
  emit (ListenRequested port (HOST w));;
  emit (HandlerRegistered "SIGINT");;
  emit (HandlerRegistered "SIGTERM");;
  (if negb (Js.truthy (env_CI w)) then emit (HandlerRegistered "stdin end")
   else resolve tt);;
  resolve urls.

(** The second [then] handler, lines 87-157: [None] when no port was found,
    the URLs of the server when it was asked to listen. *)
Definition onPort (w : World) (port : option Z) : Run (option Urls) :=
  match port with
  | None => error "Port not found" [];; resolve None
  | Some port => urls ← serve w port; resolve (Some urls)
  end.

(** The chain before its [catch], lines 81-157. *)
Definition attempt (w : World) : Run (option Urls) :=
  then_
    (then_ (call (BrowsersChecked (appPath (paths w)) (isInteractive w))
                 (checkBrowsers w))
           (fun _ =>
              call_with (PortChosen (HOST w) (DEFAULT_PORT w)) (choosePort w)))
    (onPort w).

(** The [catch] of the chain, lines 158-162. *)
Definition onUncaught {A} (err : Js.Error) : Run A :=
  error (if Js.truthy (Js.message err) then Js.to_string (Js.message err)
         else "Undefined error") [AErr err];;
  process_exit 1.

(** The script up to the end of its chain. *)
Definition main (w : World) : Run (option Urls) :=
  if negb (checkRequiredFiles w [appHtml (paths w); appIndexJs (paths w)]) then
    error "Either fields are missing:"
          [APaths (appHtml (paths w)) (appIndexJs (paths w))];;
    process_exit 1
  else
    (if Js.truthy (env_HOST w) then
       info ("Attempting to bind to HOST environment variable: "
               ++ Js.to_string (env_HOST w)) [];;
       log (Some "If this was unintentional, check that you haven't mistakenly set it in your shell.") [];;
       log (Some "Learn more here: https://cra.link/advanced-config") [];;
       log None []
     else resolve tt);;
    info "Dev server settings:"
         [ASettings (tscCompileOnError w) (protocol w) (DEFAULT_PORT w)
                    (HOST w) (isInteractive w)];;
    catch_ (attempt w) onUncaught.

(** The callback given to [devServer.listen], lines 129-141. *)
Definition onListen (w : World) (urls : Urls) (err : option Js.Error)
    : Run unit :=
  match err with
  | Some err => error "Unable to start" [AErr err]
  | None =>
      (if isInteractive w then emit ConsoleCleared else resolve tt);;
      (if FAST_REFRESH w && semver_lt w (react_version w) "16.10.0" then
         warn ("Fast Refresh requires React 16.10 or higher. You are using React "
                 ++ react_version w ++ ".") []
       else resolve tt);;
      info ("Starting the development server..." ++ Js.nl) [];;
      emit (BrowserOpened (localUrlForBrowser urls))
  end.


(** The script, then the answer of [listen] when the server was asked to
    listen. *)
Definition run (w : World) : Run unit :=
  then_ (main w)
        (fun served =>
           match served with
           | None => resolve tt
           | Some urls => onListen w urls (listen w)
           end).

Definition is_serverEvent (ev : event) : bool :=
  match ev with
  | UrlsPrepared _ _ _ | CompilerCreated _ _ | ProxyPrepared
  | ServerConfigured _ | ServerCreated | ListenRequested _ _
  | HandlerRegistered _ | ConsoleCleared | BrowserOpened _ | ServerClosed =>
      true
  | _ => false
  end.

Definition handlersRegistered (t : list event) : list string :=
  omap (fun ev => match ev with
                  | HandlerRegistered on => Some on
                  | _ => None
                  end) t.

Definition browsersOpened (t : list event) : list string :=
  omap (fun ev => match ev with
                  | BrowserOpened url => Some url
                  | _ => None
                  end) t.

Definition errorsLogged (t : list event) : list string :=
  omap (fun ev => match ev with
                  | Logged LError msg _ => Some msg
                  | _ => None
                  end) t.

(** A world in which every file is there and no call throws. *)
Definition sample (tsc host ci : option string) (port : option Z)
    (listening : option Js.Error) : World :=
  {| paths := Sample.app_paths;
     appPackageJson_name := Some "app";
     stdout_isTTY := false;
     env_TSC_COMPILE_ON_ERROR := tsc;
     env_HTTPS := None;
     env_PORT := None;
     env_HOST := host;
     env_CI := ci;
     FAST_REFRESH := false;
     react_version := "17.0.2";
     semver_lt := fun _ _ => false;
     parseInt := fun s => if String.eqb s "5678" then Some 5678 else None;
     file_exists := fun _ => true;
     checkBrowsers := None;
     choosePort := inr port;
     prepareUrls := inr {| lanUrlForConfig := Some "192.168.0.2";
                           localUrlForBrowser := "http://localhost:5678" |};
     createCompiler := None;
     prepareProxy := None;
     createDevServerConfig := None;
     new_WebpackDevServer := None;
     listen := listening |}.


End Start.

(** * Properties *)

(** ** [getFilesTotalSize] *)

Section TotalSize.

Implicit Types (o : gmap string Z) (l : list (string * Z)).

(** Reading each key of a list of entries of [o] back from [o] and adding
    up gives the sum of the entries' sizes. *)
Lemma foldl_prop_entries o l a :
  (∀ k v, (k, v) ∈ l → o !! k = Some v) →
  foldl (fun result el => result + prop o el) a l.*1 = a + sum_sizes l.*2.
Proof.
  revert a. induction l as [|[k v] l IH]; intros a Hl; simpl.
  - lia.
  - rewrite IH.
    + unfold prop, sum_sizes. rewrite (Hl k v); [| left].
      simpl. rewrite Z.add_assoc. reflexivity.
    + intros k' v' Hin. apply Hl. by right.
Qed.

Lemma sum_sizes_perm (xs ys : list Z) :
  xs ≡ₚ ys → sum_sizes xs = sum_sizes ys.
Proof.
  induction 1; simpl; lia.
Qed.

Lemma total_size_values r o :
  getFilesTotalSize {| root := r; sizes := Some o |}
  = sum_sizes (map_to_list o).*2.
Proof.
  unfold getFilesTotalSize, Object_keys; simpl.
  rewrite foldl_prop_entries; [lia |].
  intros k v Hin. by apply elem_of_map_to_list.
Qed.

Lemma total_size_empty r :
  getFilesTotalSize {| root := r; sizes := Some ∅ |} = 0.
Proof. rewrite total_size_values, map_to_list_empty. reflexivity. Qed.

Lemma total_size_insert r o k v :
  o !! k = None →
  getFilesTotalSize {| root := r; sizes := Some (<[k := v]> o) |}
  = v + getFilesTotalSize {| root := r; sizes := Some o |}.
Proof.
  intros Hk. rewrite !total_size_values.
  rewrite (sum_sizes_perm _ ((k, v) :: map_to_list o).*2).
  - reflexivity.
  - apply fmap_Permutation. by apply map_to_list_insert.
Qed.

End TotalSize.

(** C8: the total of a snapshot is the sum of the sizes in its mapping,
    whatever the order of its keys: reading every key of [Object.keys] back
    and adding up gives the sum of the map's values; a snapshot without a
    mapping totals 0; the snapshots {a:100, b:200} and {a:150, b:150} both
    total 300; and the fulfilment handler reports these two totals. *)
Theorem getFilesTotalSize_is_sum :
  (∀ r o, getFilesTotalSize {| root := r; sizes := Some o |}
          = sum_sizes (map_to_list o).*2)
  ∧ (∀ r, getFilesTotalSize {| root := r; sizes := None |} = 0)
  ∧ getFilesTotalSize Sample.before = 300
  ∧ getFilesTotalSize Sample.after = 300
  ∧ (∀ w args newFiles,
       measure_after w = inr newFiles →
       Logged LInfo "Total sizes, KB:"
              [ATotalsKB (getFilesTotalSize (previousFileSizes args))
                         (getFilesTotalSize newFiles)]
       ∈ trace (onBuilt w args)).
Proof.
  split; [exact total_size_values |].
  split; [reflexivity |].
  split; [vm_compute; reflexivity |].
  split; [vm_compute; reflexivity |].
  intros w args newFiles Hm. unfold onBuilt. rewrite Hm.
  destruct (0 <? length (ra_warnings args))%nat;
    destruct (printFileSizesAfterBuild w (stats args)); simpl;
    rewrite !list_elem_of_In; simpl; tauto.
Qed.

(** ** Laws of the promise monad *)

Section Promise.

Context {A B : Type}.
Implicit Types (p : Run A) (k : A → Run B) (h : Js.Error → Run B).

Lemma prefixed_nil (r : Run B) : prefixed [] r = r.
Proof. by destruct r. Qed.

Lemma then2_resolve a k h : then2 (resolve a) k h = k a.
Proof. apply prefixed_nil. Qed.

Lemma then2_reject e k h : then2 (reject e) k h = h e.
Proof. apply prefixed_nil. Qed.

Lemma then2_fulfilled p a k h :
  result p = Fulfilled a → then2 p k h = prefixed (trace p) (k a).
Proof. destruct p as [t r]; simpl; intros ->; reflexivity. Qed.

Lemma then2_rejected p e k h :
  result p = Rejected e → then2 p k h = prefixed (trace p) (h e).
Proof. destruct p as [t r]; simpl; intros ->; reflexivity. Qed.

Lemma then2_exited p c k h :
  result p = Exited c → then2 p k h = (trace p, Exited c).
Proof. destruct p as [t r]; simpl; intros ->; reflexivity. Qed.

Lemma result_prefixed t (r : Run B) : result (prefixed t r) = result r.
Proof. reflexivity. Qed.

Lemma trace_prefixed t (r : Run B) : trace (prefixed t r) = (t ++ trace r)%list.
Proof. reflexivity. Qed.

Lemma exitCode_prefixed t (r : Run B) : exitCode (prefixed t r) = exitCode r.
Proof. reflexivity. Qed.

(** A property of events that holds along [p] and along both handlers
    holds along [p.then(k, h)]. *)
Lemma Forall_then2 (P : event → Prop) p k h :
  Forall P (trace p) →
  (∀ a, Forall P (trace (k a))) →
  (∀ e, Forall P (trace (h e))) →
  Forall P (trace (then2 p k h)).
Proof.
  destruct p as [t [a|e|c|e]]; simpl; intros Ht Hk Hh; try assumption.
  - apply Forall_app; split; [assumption | apply Hk].
  - apply Forall_app; split; [assumption | apply Hh].
Qed.

End Promise.

Lemma Forall_resolve {A} (P : event → Prop) (a : A) :
  Forall P (trace (resolve a)).
Proof. constructor. Qed.

Lemma Forall_reject {A} (P : event → Prop) e :
  Forall P (trace (reject (A:=A) e)).
Proof. constructor. Qed.

Lemma Forall_exit {A} (P : event → Prop) c :
  Forall P (trace (process_exit (A:=A) c)).
Proof. constructor. Qed.

Lemma Forall_escape {A} (P : event → Prop) e :
  Forall P (trace (escape (A:=A) e)).
Proof. constructor. Qed.

Lemma Forall_emit (P : event → Prop) ev : P ev → Forall P (trace (emit ev)).
Proof. intros; repeat constructor; assumption. Qed.

(** Walks through a script: every [then] by [Forall_then2], every emitted
    event by evaluating the property on it, every branch by cases. *)
Ltac along_trace :=
  unfold call, call_with, log, info, warn, error;
  unfold mbind, run_bind, then_, catch_;
  repeat first
    [ apply Forall_then2
    | apply Forall_resolve | apply Forall_reject
    | apply Forall_exit | apply Forall_escape
    | apply Forall_emit; reflexivity
    | intro
    | match goal with
      | |- Forall _ (trace (if ?b then _ else _)) => destruct b eqn:?
      | |- Forall _ (trace (match ?x with _ => _ end)) => destruct x eqn:?
      end ].

(** *** Two invariants of the handlers' traces *)

Lemma onBuilt_noConfigError w args :
  Forall noConfigError (trace (onBuilt w args)).
Proof. unfold onBuilt. along_trace. Qed.

Lemma onFailed_noConfigError w err :
  Forall noConfigError (trace (onFailed w err)).
Proof. unfold onFailed. along_trace. Qed.

Lemma onUncaught_noConfigError err :
  Forall noConfigError (trace (onUncaught err)).
Proof. unfold onUncaught. along_trace. Qed.

Lemma pipeline_noConfigError w :
  Forall noConfigError (trace (pipeline w)).
Proof.
  unfold pipeline, copyPublicFolder, build, onCompiled, settle.
  along_trace.
Qed.

Lemma chain_noConfigError w : Forall noConfigError (trace (chain w)).
Proof.
  unfold chain, handled, catch_.
  apply Forall_then2; [apply Forall_then2 | |].
  - apply pipeline_noConfigError.
  - apply onBuilt_noConfigError.
  - apply onFailed_noConfigError.
  - intros; apply Forall_resolve.
  - apply onUncaught_noConfigError.
Qed.

Lemma onBuilt_noStatsWrite w args :
  Forall noStatsWrite (trace (onBuilt w args)).
Proof. unfold onBuilt. along_trace. Qed.

Lemma onFailed_noStatsWrite w err :
  Forall noStatsWrite (trace (onFailed w err)).
Proof. unfold onFailed. along_trace. Qed.

Lemma onUncaught_noStatsWrite err :
  Forall noStatsWrite (trace (onUncaught err)).
Proof. unfold onUncaught. along_trace. Qed.

Lemma statsWrites_app t1 t2 :
  statsWrites (t1 ++ t2)%list = (statsWrites t1 ++ statsWrites t2)%list.
Proof. apply omap_app. Qed.

Lemma statsWrites_none t : Forall noStatsWrite t → statsWrites t = [].
Proof.
  induction 1 as [|ev t Hev _ IH]; [reflexivity |].
  destruct ev; try discriminate; exact IH.
Qed.

(** ** The steps of the script, one equation each *)

Lemma truthy_Some m : Js.truthy (Some m) = true ↔ m ≠ EmptyString.
Proof.
  unfold Js.truthy. destruct (String.eqb_spec m EmptyString); simpl; split;
    congruence.
Qed.

Lemma settle_errors w prev st m e rest :
  errors m = e :: rest →
  settle w prev st m = reject (Js.new_Error e).
Proof. unfold settle. intros ->. destruct rest; reflexivity. Qed.

Lemma nonempty_length (xs : list string) :
  xs ≠ [] → (0 <? length xs)%nat = true.
Proof. destruct xs; [congruence | reflexivity]. Qed.

Lemma settle_escalated w prev st m :
  errors m = [] → warnings m ≠ [] → treatWarningsAsErrors w = true →
  result (settle w prev st m)
  = Rejected (Js.new_Error (Js.join (Js.nl ++ Js.nl) (warnings m)))
  ∧ statsWrites (trace (settle w prev st m)) = [].
Proof.
  unfold settle. intros -> Hw ->. rewrite (nonempty_length _ Hw).
  split; reflexivity.
Qed.

Lemma onCompiled_stats w prev st :
  onCompiled w prev (inr st)
  = settle w prev (Some st) (formatWebpackMessages w (toJson_messages st)).
Proof. unfold onCompiled. apply then2_resolve. Qed.

Lemma onCompiled_error w prev err :
  Js.truthy (Js.message err) = true →
  onCompiled w prev (inl err)
  = settle w prev None (formatWebpackMessages w (rawMessages (inl err))).
Proof. unfold onCompiled. intros ->. apply then2_resolve. Qed.

Lemma onCompiled_silent w prev err :
  Js.truthy (Js.message err) = false →
  onCompiled w prev (inl err)
  = ([Logged LError "Unknown error" [AErr err]], Rejected err).
Proof. unfold onCompiled. intros ->. reflexivity. Qed.

Lemma onCompiled_formatted w prev r :
  (∀ err, r = inl err → Js.truthy (Js.message err) = true) →
  onCompiled w prev r
  = settle w prev (stats_of r) (formatWebpackMessages w (rawMessages r)).
Proof.
  destruct r as [err|st]; intros Hr.
  - apply onCompiled_error, Hr. reflexivity.
  - apply onCompiled_stats.
Qed.

Lemma build_runs_compiler_once w prev :
  build w prev
  = prefixed [Logged LInfo "Creating an optimized production build..." [];
              CompilerRun]
             (onCompiled w prev (compiler_run w)).
Proof. reflexivity. Qed.

Lemma pipeline_reaches_build w :
  reachesBuild w = true →
  ∃ prev, measure_before w = inr prev
          ∧ pipeline w = prefixed (preamble w) (build w prev).
Proof.
  unfold reachesBuild, pipeline, copyPublicFolder.
  intros [_ H]%andb_prop.
  destruct (checkBrowsers w), (measure_before w) as [|prev],
    (emptyDirSync w), (copySync w); try discriminate.
  exists prev. split; reflexivity.
Qed.

Lemma main_guard_passed w :
  checkRequiredFiles w [appHtml (paths w); appIndexJs (paths w)] = true →
  main w
  = prefixed [Logged LInfo "Build server settings:"
                     [ASettings (argv w) (isInteractive w)]]
             (chain w).
Proof. unfold main. intros ->. reflexivity. Qed.

Lemma main_guard_failed w :
  checkRequiredFiles w [appHtml (paths w); appIndexJs (paths w)] = false →
  main w
  = ([Logged LError "Either fields are missing:"
             [APaths (appHtml (paths w)) (appIndexJs (paths w))]],
     Exited 1).
Proof. unfold main. intros ->. reflexivity. Qed.

Lemma reachesBuild_guard w :
  reachesBuild w = true →
  checkRequiredFiles w [appHtml (paths w); appIndexJs (paths w)] = true.
Proof. unfold reachesBuild. by intros [H _]%andb_prop. Qed.

(** What the rejection handler and the top-level catch make of an error. *)
Lemma onFailed_tolerated w err :
  tscCompileOnError w = true → printBuildError w err = None →
  onFailed w err
  = ([Logged LWarn
        ("Compiled with the following type errors (you may want to check these before deploying your app):"
           ++ Js.nl) [];
      BuildErrorPrinted err], Fulfilled tt).
Proof. unfold onFailed. intros -> H. unfold call. rewrite H. reflexivity. Qed.

Lemma onFailed_fatal w err :
  tscCompileOnError w = false →
  catch_ (onFailed w err) onUncaught
  = match printBuildError w err with
    | None =>
        ([Logged LError ("Failed to compile." ++ Js.nl) [];
          BuildErrorPrinted err], Exited 1)
    | Some e =>
        prefixed [Logged LError ("Failed to compile." ++ Js.nl) [];
                  BuildErrorPrinted err] (onUncaught e)
    end.
Proof.
  unfold onFailed. intros ->. unfold call.
  destruct (printBuildError w err); reflexivity.
Qed.

Lemma onUncaught_exits err :
  onUncaught err
  = ([Logged LError (if Js.truthy (Js.message err)
                     then Js.to_string (Js.message err)
                     else "Undefined error") [AErr err]], Exited 1).
Proof. reflexivity. Qed.

Lemma tscCompileOnError_true w :
  tscCompileOnError w = true ↔ env_TSC_COMPILE_ON_ERROR w = Some "true".
Proof.
  unfold tscCompileOnError.
  destruct (env_TSC_COMPILE_ON_ERROR w) as [s|]; [|split; congruence].
  destruct (String.eqb_spec s "true"); split; congruence.
Qed.

(** The chain once the pipeline has rejected. *)
Lemma chain_rejected w err :
  result (pipeline w) = Rejected err →
  chain w = prefixed (trace (pipeline w)) (catch_ (onFailed w err) onUncaught).
Proof.
  unfold chain, handled. intros H.
  rewrite (then2_rejected _ err) by exact H.
  unfold catch_, then2, prefixed.
  destruct (onFailed w err) as [t [[]|e|c|e]]; simpl;
    rewrite ?app_nil_r, <- ?app_assoc; reflexivity.
Qed.

(** The chain once the pipeline has fulfilled. *)
Lemma chain_fulfilled w args :
  result (pipeline w) = Fulfilled args →
  chain w = prefixed (trace (pipeline w)) (catch_ (onBuilt w args) onUncaught).
Proof.
  unfold chain, handled. intros H.
  rewrite (then2_fulfilled _ args) by exact H.
  unfold catch_, then2, prefixed.
  destruct (onBuilt w args) as [t [[]|e|c|e]]; simpl;
    rewrite ?app_nil_r, <- ?app_assoc; reflexivity.
Qed.

(** ** The decision policy *)

(** C1: whenever the formatted messages of the compiler's answer hold at
    least one error, [build] rejects with an [Error] whose message is the
    first error alone, however many follow it; and on a run that gets as far
    as [build], that [Error] is what the script prints. *)
Theorem first_error_is_the_reason w prev e rest :
  (∀ err, compiler_run w = inl err → Js.truthy (Js.message err) = true) →
  errors (formatWebpackMessages w (rawMessages (compiler_run w))) = e :: rest →
  result (build w prev) = Rejected (Js.new_Error e)
  ∧ Js.message (Js.new_Error e) = Some e
  ∧ (reachesBuild w = true →
     BuildErrorPrinted (Js.new_Error e) ∈ trace (main w)).
Proof.
  intros Hmsg Herrs.
  assert (Hb : ∀ prev', result (build w prev') = Rejected (Js.new_Error e)).
  { intros prev'. rewrite build_runs_compiler_once, result_prefixed.
    rewrite onCompiled_formatted by exact Hmsg.
    rewrite (settle_errors _ _ _ _ e rest Herrs). reflexivity. }
  split; [apply Hb |]. split; [reflexivity |].
  intros Hreach.
  destruct (pipeline_reaches_build w Hreach) as (prev' & _ & Hp).
  rewrite main_guard_passed by (apply reachesBuild_guard, Hreach).
  rewrite (chain_rejected w (Js.new_Error e))
    by (rewrite Hp, result_prefixed; apply Hb).
  rewrite !trace_prefixed.
  right. apply elem_of_app. right.
  unfold onFailed, call.
  destruct (tscCompileOnError w), (printBuildError w (Js.new_Error e));
    simpl; rewrite list_elem_of_In; simpl; tauto.
Qed.

(** C5: a non-empty error sequence makes the outcome a Failure whatever the
    warnings and the CI flag are: the callback rejects, and what [settle]
    does is decided by the error sequence alone, before the warnings, the
    environment or the write-stats flag are looked at. *)
Theorem errors_take_precedence w prev m :
  errors m ≠ [] →
  (∀ r, formatWebpackMessages w (rawMessages r) = m →
        ∃ reason, result (onCompiled w prev r) = Rejected reason)
  ∧ (∀ st w' prev' st' m',
       errors m' = errors m →
       settle w' prev' st' m' = settle w prev st m
       ∧ trace (settle w prev st m) = []).
Proof.
  intros Hne. destruct (errors m) as [|e rest] eqn:Herrs; [congruence |].
  split.
  - intros r Hr. destruct r as [err|st].
    + destruct (Js.truthy (Js.message err)) eqn:Ht.
      * rewrite onCompiled_error, Hr by exact Ht.
        rewrite (settle_errors _ _ _ _ e rest Herrs). by eexists.
      * rewrite onCompiled_silent by exact Ht. by eexists.
    + rewrite onCompiled_stats. simpl in Hr. rewrite Hr.
      rewrite (settle_errors _ _ _ _ e rest Herrs). by eexists.
  - intros st w' prev' st' m' Hm'.
    rewrite (settle_errors w' prev' st' m' e rest Hm').
    rewrite (settle_errors w prev st m e rest Herrs). split; reflexivity.
Qed.

(** C6, as the code has it: an error handed over by the compiler itself,
    with a non-empty message, becomes a sequence of exactly one error and no
    warning, which is formatted and settled like any other; the one error is
    the message, and for an error with a [postcssNode] the message followed
    by a line naming the node's selector.  An error without a message is not
    wrapped: it is logged as [Unknown error] and [build] rejects with the
    error itself. *)
Theorem transport_failure_is_wrapped w prev err :
  (∀ msg, Js.message err = Some msg → msg ≠ EmptyString →
     (Js.postcssNode err = None →
        onCompiled w prev (inl err)
        = settle w prev None
            (formatWebpackMessages w {| errors := [msg]; warnings := [] |}))
     ∧ (∀ node, Js.postcssNode err = Some node →
        onCompiled w prev (inl err)
        = settle w prev None
            (formatWebpackMessages w
               {| errors := [msg ++ Js.nl
                                 ++ "CompileError: Begins at CSS selector "
                                 ++ Js.to_string (Js.selector node)];
                  warnings := [] |})))
  ∧ (Js.message err = None ∨ Js.message err = Some EmptyString →
     onCompiled w prev (inl err)
     = ([Logged LError "Unknown error" [AErr err]], Rejected err)).
Proof.
  split.
  - intros msg Hmsg Hne.
    assert (Ht : Js.truthy (Js.message err) = true)
      by (rewrite Hmsg; by apply truthy_Some).
    split; [intros Hnode | intros node Hnode];
      rewrite onCompiled_error by exact Ht;
      unfold rawMessages, errMessage; rewrite Hmsg, Hnode; reflexivity.
  - intros Hnone. apply onCompiled_silent.
    destruct Hnone as [-> | ->]; reflexivity.
Qed.

(** C6 as stated fails: the compiler hands over an error that has no
    message; nothing is wrapped or formatted, [build] rejects with the error
    itself, whose message is still missing. *)
Lemma failure_without_message_is_not_wrapped :
  let w := Sample.world [] None None (inl Sample.silent) in
  compiler_run w = inl Sample.silent
  ∧ build w Sample.before
    = ([Logged LInfo "Creating an optimized production build..." [];
        CompilerRun;
        Logged LError "Unknown error" [AErr Sample.silent]],
       Rejected Sample.silent)
  ∧ Js.message Sample.silent = None.
Proof. repeat split. Qed.

(** When the CI variable makes warnings fatal: it is set, not empty, and not
    a spelling of [false]. *)
Lemma treatWarningsAsErrors_true w :
  treatWarningsAsErrors w = true
  ↔ ∃ s, env_CI w = Some s ∧ s ≠ EmptyString
         ∧ Js.toLowerCase s ≠ "false".
Proof.
  unfold treatWarningsAsErrors. destruct (env_CI w) as [s|]; simpl.
  - destruct (String.eqb_spec s EmptyString),
      (String.eqb_spec (Js.toLowerCase s) "false");
      simpl; split; try discriminate;
      try (intros (s' & [= <-] & ? & ?); congruence).
    intros _. by exists s.
  - split; [discriminate | intros (s & ? & _); discriminate].
Qed.

Lemma treatWarningsAsErrors_false w :
  treatWarningsAsErrors w = false
  ↔ env_CI w = None ∨ env_CI w = Some EmptyString
    ∨ ∃ s, env_CI w = Some s ∧ Js.toLowerCase s = "false".
Proof.
  unfold treatWarningsAsErrors. destruct (env_CI w) as [s|]; simpl.
  - destruct (String.eqb_spec s EmptyString),
      (String.eqb_spec (Js.toLowerCase s) "false");
      simpl; split; try discriminate; subst; eauto.
    intros [?|[[= ?]|(s' & [= <-] & ?)]]; congruence.
  - split; eauto.
Qed.

(** C2, as the code has it: with no error and at least one warning, [build]
    rejects with the joined warnings when CI is set to a non-empty string
    that does not lower-case to [false]; when CI is unset, empty, or spells
    [false] in any letter case, [build] resolves with the compiler's
    statistics and the full warning sequence, provided the stats file is not
    asked for or is written without failure. *)
Theorem warnings_escalate_under_CI w prev st :
  compiler_run w = inr st →
  errors (formatWebpackMessages w (toJson_messages st)) = [] →
  warnings (formatWebpackMessages w (toJson_messages st)) ≠ [] →
  (∀ s, env_CI w = Some s → s ≠ EmptyString →
        Js.toLowerCase s ≠ "false" →
     result (build w prev)
     = Rejected (Js.new_Error
         (Js.join (Js.nl ++ Js.nl)
            (warnings (formatWebpackMessages w (toJson_messages st))))))
  ∧ (env_CI w = None ∨ env_CI w = Some EmptyString
       ∨ (∃ s, env_CI w = Some s ∧ Js.toLowerCase s = "false") →
     writeStatsJson w = false
       ∨ bfj_write w (bundleStatsPath w) (toJson st) = None →
     result (build w prev)
     = Fulfilled
         {| stats := Some st;
            previousFileSizes := prev;
            ra_warnings :=
              warnings (formatWebpackMessages w (toJson_messages st)) |}).
Proof.
  intros Hr Herrs Hwarn.
  rewrite build_runs_compiler_once, result_prefixed, Hr, onCompiled_stats.
  split.
  - intros s Hs Hne Hlow.
    apply settle_escalated; [assumption | assumption |].
    apply treatWarningsAsErrors_true. by exists s.
  - intros Hci%treatWarningsAsErrors_false Hstats.
    unfold settle. rewrite Herrs, Hci. simpl.
    destruct Hstats as [-> | Hwrite]; [reflexivity |].
    destruct (writeStatsJson w); [| reflexivity].
    rewrite Hwrite. reflexivity.
Qed.

(** C2 as stated fails: CI set to [FALSE], or set to the empty string, is
    set and is not the string [false], yet a warning-only result resolves. *)
Lemma CI_set_but_not_strict :
  let st := Sample.stats [] ["w1"] in
  ("FALSE" ≠ "false"
   ∧ env_CI (Sample.world [] (Some "FALSE") None (inr st)) = Some "FALSE"
   ∧ result (build (Sample.world [] (Some "FALSE") None (inr st))
                   Sample.before)
     = Fulfilled {| stats := Some st;
                    previousFileSizes := Sample.before;
                    ra_warnings := ["w1"] |})
  ∧ (EmptyString ≠ "false"
     ∧ env_CI (Sample.world [] (Some EmptyString) None (inr st))
       = Some EmptyString
     ∧ result (build (Sample.world [] (Some EmptyString) None (inr st))
                     Sample.before)
       = Fulfilled {| stats := Some st;
                      previousFileSizes := Sample.before;
                      ra_warnings := ["w1"] |}).
Proof. repeat split; try discriminate. Qed.

(** ** The rejection handler and the exit code *)

(** C3, as the code has it: once the pipeline has rejected, with an error of
    whatever origin, the exit code is decided by TSC_COMPILE_ON_ERROR alone.
    When it is [true] (and printing the error does not throw) the failure is
    reported at warning level and the process ends with 0; otherwise the
    script reports at error level and exits with 1. *)
Theorem tolerate_flag_decides_exit_code w err :
  checkRequiredFiles w [appHtml (paths w); appIndexJs (paths w)] = true →
  result (pipeline w) = Rejected err →
  (env_TSC_COMPILE_ON_ERROR w = Some "true" →
   printBuildError w err = None →
     exitCode (main w) = Some 0
     ∧ trace (main w)
       = (Logged LInfo "Build server settings:"
                 [ASettings (argv w) (isInteractive w)]
          :: trace (pipeline w)
          ++ [Logged LWarn
                ("Compiled with the following type errors (you may want to check these before deploying your app):"
                   ++ Js.nl) [];
              BuildErrorPrinted err])%list)
  ∧ (env_TSC_COMPILE_ON_ERROR w ≠ Some "true" →
     exitCode (main w) = Some 1
     ∧ Logged LError ("Failed to compile." ++ Js.nl) [] ∈ trace (main w)).
Proof.
  intros Hfiles Hrej.
  rewrite main_guard_passed by exact Hfiles.
  rewrite (chain_rejected w err Hrej).
  rewrite !exitCode_prefixed, !trace_prefixed.
  split.
  - intros Htsc%tscCompileOnError_true Hprint.
    rewrite (onFailed_tolerated w err Htsc Hprint). split; reflexivity.
  - intros Htsc.
    assert (Hoff : tscCompileOnError w = false).
    { destruct (tscCompileOnError w) eqn:E; [| reflexivity].
      apply tscCompileOnError_true in E. contradiction. }
    rewrite (onFailed_fatal w err Hoff).
    destruct (printBuildError w err); split; try reflexivity;
      right; apply elem_of_app; right; left.
Qed.

(** C3 as stated fails: with the flag set, a failure of the bundler itself
    (the compiler handed over an error, no type check was involved) ends
    with exit code 0 as well. *)
Lemma bundler_failure_is_tolerated_too :
  let w := Sample.world [] None (Some "true") (inl Sample.boom) in
  compiler_run w = inl Sample.boom
  ∧ tscCompileOnError w = true
  ∧ result (build w Sample.before) = Rejected (Js.new_Error "boom")
  ∧ exitCode (main w) = Some 0.
Proof. repeat split. Qed.

(** ** The required-files guard *)

(** C4: with both required files present the guard lets the script through
    to its chain and no event of the run is the guard's report; with either
    file absent the run is the guard's report followed by exit code 1, and
    the compiler has not run. *)
Theorem required_files_guard w :
  (file_exists w (appHtml (paths w)) = true →
   file_exists w (appIndexJs (paths w)) = true →
     main w = prefixed [Logged LInfo "Build server settings:"
                               [ASettings (argv w) (isInteractive w)]]
                       (chain w)
     ∧ Forall noConfigError (trace (main w)))
  ∧ (file_exists w (appHtml (paths w)) = false
       ∨ file_exists w (appIndexJs (paths w)) = false →
     trace (main w)
       = [Logged LError "Either fields are missing:"
                 [APaths (appHtml (paths w)) (appIndexJs (paths w))]]
     ∧ exitCode (main w) = Some 1
     ∧ compilerRuns (trace (main w)) = 0%nat).
Proof.
  split.
  - intros Hhtml Hjs.
    assert (Hok : checkRequiredFiles w
                    [appHtml (paths w); appIndexJs (paths w)] = true)
      by (unfold checkRequiredFiles; simpl; rewrite Hhtml, Hjs; reflexivity).
    rewrite main_guard_passed by exact Hok. split; [reflexivity |].
    rewrite trace_prefixed. apply Forall_app. split.
    + repeat constructor.
    + apply chain_noConfigError.
  - intros Hmissing.
    assert (Hko : checkRequiredFiles w
                    [appHtml (paths w); appIndexJs (paths w)] = false).
    { unfold checkRequiredFiles; simpl.
      destruct Hmissing as [-> | ->]; [reflexivity |].
      rewrite andb_false_r. reflexivity. }
    rewrite main_guard_failed by exact Hko. repeat split.
Qed.

(** ** The stats file *)

Lemma pipeline_noStatsWrite w :
  writeStatsJson w = false → Forall noStatsWrite (trace (pipeline w)).
Proof.
  intros Hflag.
  unfold pipeline, copyPublicFolder, build, onCompiled, settle.
  along_trace. congruence.
Qed.

(** Handlers that write no stats leave the stats writes of a promise as
    they are. *)
Lemma statsWrites_then2 {A B} (p : Run A) (k : A → Run B) h :
  (∀ a, Forall noStatsWrite (trace (k a))) →
  (∀ e, Forall noStatsWrite (trace (h e))) →
  statsWrites (trace (then2 p k h)) = statsWrites (trace p).
Proof.
  intros Hk Hh. destruct p as [t [a|e|c|e]]; try reflexivity.
  - change (statsWrites (t ++ trace (k a))%list = statsWrites t).
    rewrite statsWrites_app, (statsWrites_none _ (Hk a)). apply app_nil_r.
  - change (statsWrites (t ++ trace (h e))%list = statsWrites t).
    rewrite statsWrites_app, (statsWrites_none _ (Hh e)). apply app_nil_r.
Qed.

Lemma statsWrites_chain w :
  statsWrites (trace (chain w)) = statsWrites (trace (pipeline w)).
Proof.
  unfold chain, handled, catch_.
  rewrite statsWrites_then2, statsWrites_then2;
    auto using onBuilt_noStatsWrite, onFailed_noStatsWrite,
      onUncaught_noStatsWrite, Forall_resolve.
Qed.

Lemma statsWrites_main w prev :
  reachesBuild w = true → measure_before w = inr prev →
  statsWrites (trace (main w)) = statsWrites (trace (build w prev)).
Proof.
  intros Hreach Hprev.
  destruct (pipeline_reaches_build w Hreach) as (prev' & Hprev' & Hp).
  rewrite Hprev in Hprev'. injection Hprev' as <-.
  rewrite main_guard_passed by (apply reachesBuild_guard, Hreach).
  rewrite trace_prefixed. simpl. rewrite statsWrites_chain, Hp. reflexivity.
Qed.

(** C7 as stated fails: the flag is supplied, the compilation has an error,
    and no stats file is written. *)
Lemma stats_flag_without_stats_file :
  let w := Sample.world ["--stats"] None None (inr (Sample.stats ["E"] [])) in
  writeStatsJson w = true
  ∧ statsWrites (trace (main w)) = []
  ∧ exitCode (main w) = Some 1.
Proof. repeat split. Qed.

(** ** The top-level catch *)

(** C9 as stated fails: emptying the build folder throws, nothing has been
    classified (the compiler never ran), the flag TSC_COMPILE_ON_ERROR is
    [true]; the top-level catch logs nothing and the exit code is 0. *)
Lemma early_exception_bypasses_the_catch :
  let w := Sample.world_locked (Some "true") Sample.eacces in
  emptyDirSync w = Some Sample.eacces
  ∧ compilerRuns (trace (main w)) = 0%nat
  ∧ errorsLogged (trace (main w)) = []
  ∧ exitCode (main w) = Some 0.
Proof. repeat split. Qed.

(** C10 as stated fails: the stats write fails after a clean compilation,
    [build] rejects, and with TSC_COMPILE_ON_ERROR set to [true] the process
    still ends with exit code 0. *)
Lemma stats_write_failure_can_exit_0 :
  let st := Sample.stats [] [] in
  let w := Sample.world_disk_full ["--stats"] None (Some "true") (inr st)
             Sample.eacces in
  writeStatsJson w = true
  ∧ errors (formatWebpackMessages w (toJson_messages st)) = []
  ∧ bfj_write w (bundleStatsPath w) (toJson st) = Some Sample.eacces
  ∧ result (build w Sample.before) = Rejected (Js.new_Error_of Sample.eacces)
  ∧ exitCode (main w) = Some 0.
Proof. repeat split. Qed.

(** ** The theorems at sample runs *)

Lemma first_error_is_the_reason_witness :
  let w := Sample.world [] None None
             (inr (Sample.stats ["E1"; "E2"; "E3"] ["W1"])) in
  result (build w Sample.before) = Rejected (Js.new_Error "E1")
  ∧ BuildErrorPrinted (Js.new_Error "E1") ∈ trace (main w).
Proof.
  intros w.
  destruct (first_error_is_the_reason w Sample.before "E1" ["E2"; "E3"])
    as (Hb & _ & Hm).
  - intros err H. discriminate H.
  - reflexivity.
  - split; [exact Hb | apply Hm; reflexivity].
Defined.

Lemma warnings_escalate_under_CI_witness :
  let st := Sample.stats [] ["w1"; "w2"] in
  result (build (Sample.world [] (Some "true") None (inr st)) Sample.before)
  = Rejected (Js.new_Error (Js.join (Js.nl ++ Js.nl) ["w1"; "w2"]))
  ∧ result (build (Sample.world [] (Some "False") None (inr st)) Sample.before)
    = Fulfilled {| stats := Some st;
                   previousFileSizes := Sample.before;
                   ra_warnings := ["w1"; "w2"] |}.
Proof.
  intros st. split.
  - refine (proj1 (warnings_escalate_under_CI
                     (Sample.world [] (Some "true") None (inr st))
                     Sample.before st eq_refl eq_refl _) "true" eq_refl _ _);
      discriminate.
  - refine (proj2 (warnings_escalate_under_CI
                     (Sample.world [] (Some "False") None (inr st))
                     Sample.before st eq_refl eq_refl _) _ _).
    + discriminate.
    + right. right. exists "False". split; reflexivity.
    + left. reflexivity.
Defined.

Lemma tolerate_flag_decides_exit_code_witness :
  let r := inr (Sample.stats ["TS2322: Type 'string' is not assignable"] []) in
  exitCode (main (Sample.world [] None (Some "true") r)) = Some 0
  ∧ exitCode (main (Sample.world [] None None r)) = Some 1.
Proof.
  intros r. split.
  - refine (proj1 (proj1 (tolerate_flag_decides_exit_code
                            (Sample.world [] None (Some "true") r)
                            (Js.new_Error
                               "TS2322: Type 'string' is not assignable")
                            eq_refl eq_refl) eq_refl eq_refl)).
  - refine (proj1 (proj2 (tolerate_flag_decides_exit_code
                            (Sample.world [] None None r)
                            (Js.new_Error
                               "TS2322: Type 'string' is not assignable")
                            eq_refl eq_refl) _)).
    discriminate.
Defined.

Lemma required_files_guard_witness :
  Forall noConfigError
    (trace (main (Sample.world_files
                    ["/app/public/index.html"; "/app/src/index.tsx"])))
  ∧ exitCode (main (Sample.world_files ["/app/public/index.html"])) = Some 1
  ∧ compilerRuns (trace (main (Sample.world_files ["/app/public/index.html"])))
    = 0%nat.
Proof.
  split.
  - refine (proj2 (proj1 (required_files_guard
                            (Sample.world_files
                               ["/app/public/index.html"; "/app/src/index.tsx"]))
                         eq_refl eq_refl)).
  - refine (proj2 (proj2 (required_files_guard
                            (Sample.world_files ["/app/public/index.html"]))
                         _)).
    right. reflexivity.
Defined.

Lemma errors_take_precedence_witness :
  let m := {| errors := ["E"]; warnings := ["W"] |} in
  let st := Sample.stats ["E"] ["W"] in
  (∃ reason,
     result (onCompiled (Sample.world [] (Some "true") None (inr st))
                        Sample.before (inr st)) = Rejected reason)
  ∧ settle (Sample.world ["--stats"] None None (inr st)) Sample.after None
           {| errors := ["E"]; warnings := [] |}
    = settle (Sample.world [] (Some "true") None (inr st)) Sample.before
             (Some st) m.
Proof.
  intros m st.
  destruct (errors_take_precedence
              (Sample.world [] (Some "true") None (inr st)) Sample.before m)
    as [Hrej Hsame].
  - discriminate.
  - split.
    + apply (Hrej (inr st)). reflexivity.
    + apply (Hsame (Some st)). reflexivity.
Defined.

Lemma transport_failure_is_wrapped_witness :
  let w := Sample.world [] None None (inl Sample.css) in
  onCompiled w Sample.before (inl Sample.css)
  = settle w Sample.before None
      {| errors := ["Unknown word" ++ Js.nl
                      ++ "CompileError: Begins at CSS selector .App-header"];
         warnings := [] |}.
Proof.
  intros w.
  refine (proj2 (proj1 (transport_failure_is_wrapped w Sample.before
                          Sample.css)
                       "Unknown word" eq_refl _)
                {| Js.selector := Some ".App-header" |} eq_refl).
  discriminate.
Defined.

Lemma getFilesTotalSize_is_sum_witness :
  let w := Sample.world [] None None (inr (Sample.stats [] [])) in
  Logged LInfo "Total sizes, KB:"
         [ATotalsKB (getFilesTotalSize Sample.before)
                    (getFilesTotalSize Sample.after)]
  ∈ trace (onBuilt w {| stats := Some (Sample.stats [] []);
                        previousFileSizes := Sample.before;
                        ra_warnings := [] |}).
Proof.
  intros w.
  refine (proj2 (proj2 (proj2 (proj2 getFilesTotalSize_is_sum))) w
                {| stats := Some (Sample.stats [] []);
                   previousFileSizes := Sample.before;
                   ra_warnings := [] |} Sample.after eq_refl).
Defined.

(** * Further properties of [scripts/build.js] *)

(** ** How often the compiler runs, and after what *)

Lemma compilerRuns_app t1 t2 :
  compilerRuns (t1 ++ t2)%list = (compilerRuns t1 + compilerRuns t2)%nat.
Proof. unfold compilerRuns. rewrite List.filter_app. apply length_app. Qed.

Lemma compilerRuns_none t : Forall noCompilerRun t → compilerRuns t = 0%nat.
Proof.
  unfold compilerRuns.
  induction 1 as [|ev t Hev _ IH]; [reflexivity |].
  simpl. rewrite Hev. exact IH.
Qed.

Lemma onBuilt_noCompilerRun w args :
  Forall noCompilerRun (trace (onBuilt w args)).
Proof. unfold onBuilt. along_trace. Qed.

Lemma onFailed_noCompilerRun w err :
  Forall noCompilerRun (trace (onFailed w err)).
Proof. unfold onFailed. along_trace. Qed.

Lemma onUncaught_noCompilerRun err :
  Forall noCompilerRun (trace (onUncaught err)).
Proof. unfold onUncaught. along_trace. Qed.

Lemma onCompiled_noCompilerRun w prev r :
  Forall noCompilerRun (trace (onCompiled w prev r)).
Proof. unfold onCompiled, settle. along_trace. Qed.

Lemma then2_extends {A B} (P : event → Prop) (p : Run A) (k : A → Run B) h :
  (∀ a, Forall P (trace (k a))) →
  (∀ e, Forall P (trace (h e))) →
  ∃ rest, trace (then2 p k h) = (trace p ++ rest)%list ∧ Forall P rest.
Proof.
  intros Hk Hh. destruct p as [t [a|e|c|e]].
  - exists (trace (k a)). split; [reflexivity | apply Hk].
  - exists (trace (h e)). split; [reflexivity | apply Hh].
  - exists []. split; [symmetry; apply app_nil_r | constructor].
  - exists []. split; [symmetry; apply app_nil_r | constructor].
Qed.

Lemma compilerRuns_then2 {A B} (p : Run A) (k : A → Run B) h :
  (∀ a, Forall noCompilerRun (trace (k a))) →
  (∀ e, Forall noCompilerRun (trace (h e))) →
  compilerRuns (trace (then2 p k h)) = compilerRuns (trace p).
Proof.
  intros Hk Hh. destruct p as [t [a|e|c|e]]; try reflexivity.
  - change (compilerRuns (t ++ trace (k a))%list = compilerRuns t).
    rewrite compilerRuns_app, (compilerRuns_none _ (Hk a)). lia.
  - change (compilerRuns (t ++ trace (h e))%list = compilerRuns t).
    rewrite compilerRuns_app, (compilerRuns_none _ (Hh e)). lia.
Qed.

Lemma compilerRuns_chain w :
  compilerRuns (trace (chain w)) = compilerRuns (trace (pipeline w)).
Proof.
  unfold chain, handled, catch_.
  rewrite compilerRuns_then2, compilerRuns_then2;
    auto using onBuilt_noCompilerRun, onFailed_noCompilerRun,
      onUncaught_noCompilerRun, Forall_resolve.
Qed.

(** A pipeline that does not get as far as [build] stops at the step that
    threw. *)
Lemma pipeline_stopped w :
  checkRequiredFiles w [appHtml (paths w); appIndexJs (paths w)] = true →
  reachesBuild w = false →
  ∃ e, result (pipeline w) = Rejected e
       ∧ Forall noCompilerRun (trace (pipeline w)).
Proof.
  unfold reachesBuild, pipeline, copyPublicFolder. intros -> H.
  destruct (checkBrowsers w) as [e|]; [exists e; split; [reflexivity |] |].
  { repeat constructor. }
  destruct (measure_before w) as [e|prev];
    [exists e; split; [reflexivity |] |].
  { repeat constructor. }
  destruct (emptyDirSync w) as [e|]; [exists e; split; [reflexivity |] |].
  { repeat constructor. }
  destruct (copySync w) as [e|]; [exists e; split; [reflexivity |] |].
  { repeat constructor. }
  discriminate H.
Qed.

Lemma compilerRuns_unreached w :
  reachesBuild w = false → compilerRuns (trace (main w)) = 0%nat.
Proof.
  intros Hreach.
  destruct (checkRequiredFiles w [appHtml (paths w); appIndexJs (paths w)])
    eqn:Hfiles.
  - rewrite main_guard_passed by exact Hfiles.
    rewrite trace_prefixed, compilerRuns_app, compilerRuns_chain.
    destruct (pipeline_stopped w Hfiles Hreach) as (e & _ & Hnone).
    rewrite (compilerRuns_none _ Hnone). reflexivity.
  - rewrite main_guard_failed by exact Hfiles. reflexivity.
Qed.

Lemma compiler_runs_after_the_preamble w :
  reachesBuild w = true →
  ∃ rest, trace (main w) = (upToCompiler w ++ rest)%list
          ∧ compilerRuns rest = 0%nat.
Proof.
  intros Hreach.
  destruct (pipeline_reaches_build w Hreach) as (prev & _ & Hp).
  rewrite main_guard_passed by (apply reachesBuild_guard, Hreach).
  rewrite trace_prefixed. unfold chain, handled, catch_.
  destruct (then2_extends noCompilerRun
              (then2 (pipeline w) (onBuilt w) (onFailed w))
              resolve onUncaught) as (r1 & -> & Hr1);
    [intros; apply Forall_resolve | apply onUncaught_noCompilerRun |].
  destruct (then2_extends noCompilerRun (pipeline w) (onBuilt w)
              (onFailed w)) as (r2 & -> & Hr2);
    [apply onBuilt_noCompilerRun | apply onFailed_noCompilerRun |].
  rewrite Hp, build_runs_compiler_once.
  exists (trace (onCompiled w prev (compiler_run w)) ++ r2 ++ r1)%list.
  split.
  - rewrite !trace_prefixed. unfold upToCompiler.
    simpl. rewrite <- !app_assoc. reflexivity.
  - rewrite !compilerRuns_app,
      (compilerRuns_none _ (onCompiled_noCompilerRun _ _ _)),
      (compilerRuns_none _ Hr1), (compilerRuns_none _ Hr2).
    reflexivity.
Qed.

(** X1: the compiler runs at most once on a run, and not at all on a run
    that stops before [build]; and when it has run, the browsers have been
    checked, the build folder measured, emptied and filled from the public
    folder, in this order, before it, and nothing after it runs it again. *)
Theorem compiler_runs_at_most_once w :
  (compilerRuns (trace (main w)) ≤ 1)%nat
  ∧ (reachesBuild w = false → compilerRuns (trace (main w)) = 0%nat)
  ∧ (compilerRuns (trace (main w)) = 1%nat →
     ∃ rest, trace (main w) = (upToCompiler w ++ rest)%list
             ∧ compilerRuns rest = 0%nat).
Proof.
  destruct (reachesBuild w) eqn:Hreach.
  - destruct (compiler_runs_after_the_preamble w Hreach)
      as (rest & Htrace & Hrest).
    split; [| split].
    + rewrite Htrace, compilerRuns_app, Hrest. unfold upToCompiler.
      rewrite app_comm_cons, compilerRuns_app. simpl. reflexivity.
    + discriminate.
    + intros _. by exists rest.
  - pose proof (compilerRuns_unreached w Hreach) as H0.
    split; [rewrite H0; lia |]. split; [intros _; exact H0 |].
    rewrite H0. discriminate.
Qed.

Lemma compiler_runs_at_most_once_witness :
  let w := Sample.world [] None None (inr (Sample.stats ["E1"] [])) in
  ∃ rest, trace (main w) = (upToCompiler w ++ rest)%list
          ∧ compilerRuns rest = 0%nat.
Proof.
  intros w.
  exact (proj2 (proj2 (compiler_runs_at_most_once w)) eq_refl).
Defined.

(** ** What stays untouched when an early check fails *)

Lemma onBuilt_noDestruction w args :
  Forall noDestruction (trace (onBuilt w args)).
Proof. unfold onBuilt. along_trace. Qed.

Lemma onFailed_noDestruction w err :
  Forall noDestruction (trace (onFailed w err)).
Proof. unfold onFailed. along_trace. Qed.

Lemma onUncaught_noDestruction err :
  Forall noDestruction (trace (onUncaught err)).
Proof. unfold onUncaught. along_trace. Qed.

Lemma chain_noDestruction w :
  Forall noDestruction (trace (pipeline w)) →
  Forall noDestruction (trace (chain w)).
Proof.
  intros Hp. unfold chain, handled, catch_.
  apply Forall_then2; [apply Forall_then2 | |].
  - exact Hp.
  - apply onBuilt_noDestruction.
  - apply onFailed_noDestruction.
  - intros; apply Forall_resolve.
  - apply onUncaught_noDestruction.
Qed.

(** X2: when a required file is missing, when the browsers check rejects or
    when measuring the build folder rejects, the run never empties the build
    folder, never copies the public folder into it and never runs the
    compiler. *)
Theorem build_folder_untouched_on_early_failure w :
  checkRequiredFiles w [appHtml (paths w); appIndexJs (paths w)] = false
    ∨ (∃ e, checkBrowsers w = Some e)
    ∨ (∃ e, measure_before w = inl e) →
  Forall noDestruction (trace (main w))
  ∧ compilerRuns (trace (main w)) = 0%nat.
Proof.
  intros Hearly.
  assert (Hnot : reachesBuild w = false).
  { unfold reachesBuild.
    destruct Hearly as [-> | [[e ->] | [e ->]]]; [reflexivity | |].
    - apply andb_false_r.
    - destruct (checkBrowsers w); apply andb_false_r. }
  split.
  - destruct (checkRequiredFiles w [appHtml (paths w); appIndexJs (paths w)])
      eqn:Hfiles.
    + rewrite main_guard_passed by exact Hfiles. rewrite trace_prefixed.
      apply Forall_app. split; [repeat constructor |].
      apply chain_noDestruction.
      unfold pipeline, copyPublicFolder.
      destruct Hearly as [? | [[e He] | [e He]]]; [congruence | |].
      * rewrite He. repeat constructor.
      * rewrite He. destruct (checkBrowsers w); repeat constructor.
    + rewrite main_guard_failed by exact Hfiles. repeat constructor.
  - by apply compilerRuns_unreached.
Qed.

Lemma build_folder_untouched_on_early_failure_witness :
  Forall noDestruction
    (trace (main (Sample.world_files ["/app/src/index.tsx"]))).
Proof.
  refine (proj1 (build_folder_untouched_on_early_failure
                   (Sample.world_files ["/app/src/index.tsx"]) _)).
  left. reflexivity.
Defined.

(** ** The exit code *)

Section ExitsWith1.

Context {A B : Type}.

Lemma exitsWith1_then2 (p : Run A) (k : A → Run B) h :
  exitsWith1 p → (∀ a, exitsWith1 (k a)) → (∀ e, exitsWith1 (h e)) →
  exitsWith1 (then2 p k h).
Proof.
  unfold exitsWith1. destruct p as [t [a|e|c|e]]; simpl; intros Hp Hk Hh c';
    [apply Hk | apply Hh | | discriminate].
  intros [= <-]. by apply Hp.
Qed.

End ExitsWith1.

Lemma exitsWith1_resolve {A} (a : A) : exitsWith1 (resolve a).
Proof. intros c; discriminate. Qed.

Lemma exitsWith1_reject {A} e : exitsWith1 (reject (A:=A) e).
Proof. intros c; discriminate. Qed.

Lemma exitsWith1_escape {A} e : exitsWith1 (escape (A:=A) e).
Proof. intros c; discriminate. Qed.

Lemma exitsWith1_emit ev : exitsWith1 (emit ev).
Proof. intros c; discriminate. Qed.

Lemma exitsWith1_exit {A} : exitsWith1 (process_exit (A:=A) 1).
Proof. intros c [= <-]. reflexivity. Qed.

(** Walks through a script like [along_trace], for the exit code. *)
Ltac along_exits :=
  unfold call, call_with, log, info, warn, error;
  unfold mbind, run_bind, then_, catch_;
  repeat first
    [ apply exitsWith1_then2
    | apply exitsWith1_resolve | apply exitsWith1_reject
    | apply exitsWith1_escape | apply exitsWith1_emit
    | apply exitsWith1_exit
    | match goal with |- ∀ _, exitsWith1 _ => intro end
    | match goal with
      | |- exitsWith1 (if ?b then _ else _) => destruct b eqn:?
      | |- exitsWith1 (match ?x with _ => _ end) => destruct x eqn:?
      end ].

Lemma pipeline_exitsWith1 w : exitsWith1 (pipeline w).
Proof.
  unfold pipeline, copyPublicFolder, build, onCompiled, settle. along_exits.
Qed.

Lemma handled_exitsWith1 w : exitsWith1 (handled w).
Proof.
  unfold handled. apply exitsWith1_then2.
  - apply pipeline_exitsWith1.
  - intros args. unfold onBuilt. along_exits.
  - intros err. unfold onFailed. along_exits.
Qed.

(** X3: no rejection of the chain is left unhandled, and whenever the script
    itself ends the process it does so with exit code 1: a run ends with 0 or
    with 1, or is cut short by an exception inside the compiler's callback. *)
Theorem build_exit_code_is_0_or_1 w :
  (∀ e, result (main w) ≠ Rejected e)
  ∧ (∀ c, result (main w) = Exited c → c = 1)
  ∧ (∀ c, exitCode (main w) = Some c → c = 0 ∨ c = 1).
Proof.
  assert (H : (∀ e, result (main w) ≠ Rejected e)
              ∧ (∀ c, result (main w) = Exited c → c = 1)).
  { destruct (checkRequiredFiles w [appHtml (paths w); appIndexJs (paths w)])
      eqn:Hfiles.
    - rewrite main_guard_passed by exact Hfiles. rewrite result_prefixed.
      unfold chain, catch_.
      pose proof (handled_exitsWith1 w) as Hh. unfold exitsWith1 in Hh.
      destruct (handled w) as [t [[]|e|c|e]]; simpl in *;
        split; try discriminate; try (intros c' [= <-]; reflexivity).
      exact Hh.
    - rewrite main_guard_failed by exact Hfiles.
      split; [discriminate | intros c [= <-]; reflexivity]. }
  destruct H as [Hrej Hexit]. split; [exact Hrej |]. split; [exact Hexit |].
  unfold exitCode. intros c.
  destruct (result (main w)) as [[]|e|c'|e] eqn:Hr; intros [= <-].
  - left; reflexivity.
  - right; reflexivity.
  - right. by apply Hexit.
Qed.

(** *** When the run ends with exit code 0 *)

Lemma settle_fulfilled w prev st m args :
  result (settle w prev st m) = Fulfilled args
  ↔ errors m = []
    ∧ (treatWarningsAsErrors w = false ∨ warnings m = [])
    ∧ (writeStatsJson w = true →
       ∃ s, st = Some s ∧ bfj_write w (bundleStatsPath w) (toJson s) = None)
    ∧ args = {| stats := st;
                previousFileSizes := prev;
                ra_warnings := warnings m |}.
Proof.
  unfold settle. destruct (errors m) as [|e rest] eqn:Herrs.
  - simpl. destruct (treatWarningsAsErrors w) eqn:Hci;
      destruct (warnings m) as [|x xs] eqn:Hw; simpl.
    all: try (split; [discriminate | intros (_ & [? | ?] & _); discriminate]).
    all: destruct (writeStatsJson w) eqn:Hflag.
    all: try (split;
              [intros [= <-]; repeat split; auto; discriminate
              | intros (_ & _ & _ & ->); reflexivity]).
    all: destruct st as [s|]; simpl;
      [destruct (bfj_write w (bundleStatsPath w) (toJson s)) eqn:Hwrite; simpl
      |].
    all: try (split;
              [discriminate
              | intros (_ & _ & Hs & _); destruct (Hs eq_refl) as (s' & Hs' & Hw');
                congruence]).
    all: split;
      [intros [= <-]; repeat split; auto; intros _; by exists s
      | intros (_ & _ & _ & ->); reflexivity].
  - split; [| intros (? & _); discriminate].
    destruct rest; discriminate.
Qed.

Lemma onCompiled_fulfilled w prev r args :
  result (onCompiled w prev r) = Fulfilled args
  ↔ (∀ err, r = inl err → Js.truthy (Js.message err) = true)
    ∧ result (settle w prev (stats_of r)
                (formatWebpackMessages w (rawMessages r))) = Fulfilled args.
Proof.
  destruct r as [err|st].
  - destruct (Js.truthy (Js.message err)) eqn:Ht.
    + rewrite onCompiled_error by exact Ht. split.
      * intros H. split; [intros err' [= <-]; exact Ht | exact H].
      * intros [_ H]. exact H.
    + rewrite onCompiled_silent by exact Ht. split; [discriminate |].
      intros [H _]. specialize (H err eq_refl). congruence.
  - rewrite onCompiled_stats. split.
    + intros H. split; [discriminate | exact H].
    + intros [_ H]. exact H.
Qed.

Lemma onBuilt_fulfilled w args :
  result (onBuilt w args) = Fulfilled ()
  ↔ (∃ newFiles, measure_after w = inr newFiles)
    ∧ printFileSizesAfterBuild w (stats args) = None.
Proof.
  unfold onBuilt, call_with, call.
  destruct (0 <? length (ra_warnings args))%nat;
    destruct (measure_after w) as [e|newFiles];
    destruct (printFileSizesAfterBuild w (stats args)); simpl;
    split; try discriminate; try (intros [[? [=]] _]; fail);
    try (intros [_ [=]]; fail); eauto.
Qed.

Lemma onBuilt_exitsWith1 w args : exitsWith1 (onBuilt w args).
Proof. unfold onBuilt. along_exits. Qed.

Lemma chain_exit_0 w :
  tscCompileOnError w = false →
  exitCode (chain w) = Some 0
  ↔ ∃ args, result (pipeline w) = Fulfilled args
            ∧ result (onBuilt w args) = Fulfilled ().
Proof.
  intros Htsc. destruct (result (pipeline w)) as [args|e|c|e] eqn:Hp.
  - rewrite (chain_fulfilled w args Hp), exitCode_prefixed.
    pose proof (onBuilt_exitsWith1 w args) as Hx. unfold exitsWith1 in Hx.
    unfold catch_, exitCode.
    destruct (onBuilt w args) as [t [[]|e|c|e]] eqn:Hb; simpl in *; split;
      try discriminate;
      try (intros (args' & [= <-] & H); rewrite Hb in H; discriminate H).
    + intros _. exists args. rewrite Hb. split; reflexivity.
    + reflexivity.
    + intros [= ->]. specialize (Hx 0 eq_refl). discriminate.
  - rewrite (chain_rejected w e Hp), exitCode_prefixed.
    rewrite (onFailed_fatal w e Htsc).
    destruct (printBuildError w e); split; try discriminate;
      intros (args & [=] & _).
  - pose proof (pipeline_exitsWith1 w c Hp) as ->.
    unfold chain, handled. rewrite (then2_exited _ 1) by exact Hp.
    split; [discriminate | intros (args & [=] & _)].
  - unfold chain, handled, catch_, then2.
    destruct (pipeline w) as [t o]. simpl in Hp. subst o. simpl.
    split; [discriminate | intros (args & [=] & _)].
Qed.

Lemma pipeline_fulfilled w args :
  checkRequiredFiles w [appHtml (paths w); appIndexJs (paths w)] = true →
  result (pipeline w) = Fulfilled args
  ↔ reachesBuild w = true
    ∧ ∃ prev, measure_before w = inr prev
              ∧ result (onCompiled w prev (compiler_run w)) = Fulfilled args.
Proof.
  intros Hfiles. destruct (reachesBuild w) eqn:Hreach.
  - destruct (pipeline_reaches_build w Hreach) as (prev & Hprev & Hp).
    rewrite Hp, result_prefixed, build_runs_compiler_once, result_prefixed.
    split.
    + intros H. split; [reflexivity |]. by exists prev.
    + intros (_ & prev' & Hprev' & H). congruence.
  - destruct (pipeline_stopped w Hfiles Hreach) as (e & He & _).
    rewrite He. split; [discriminate | intros [[=] _]].
Qed.

(** X4: without the flag TSC_COMPILE_ON_ERROR, a run ends with exit code 0
    exactly when every step before [build] went through, the compiler's
    answer was formatted to no error and no escalated warning, the stats file
    (if asked for) was written, and the size report was printed without an
    exception. *)
Theorem exit_code_0_without_tolerance w :
  tscCompileOnError w = false →
  exitCode (main w) = Some 0
  ↔ reachesBuild w = true
    ∧ (∀ err, compiler_run w = inl err → Js.truthy (Js.message err) = true)
    ∧ errors (formatWebpackMessages w (rawMessages (compiler_run w))) = []
    ∧ (treatWarningsAsErrors w = false
       ∨ warnings (formatWebpackMessages w (rawMessages (compiler_run w))) = [])
    ∧ (writeStatsJson w = true →
       ∃ st, compiler_run w = inr st
             ∧ bfj_write w (bundleStatsPath w) (toJson st) = None)
    ∧ (∃ newFiles, measure_after w = inr newFiles)
    ∧ printFileSizesAfterBuild w (stats_of (compiler_run w)) = None.
Proof.
  intros Htsc.
  destruct (checkRequiredFiles w [appHtml (paths w); appIndexJs (paths w)])
    eqn:Hfiles.
  - rewrite main_guard_passed by exact Hfiles.
    rewrite exitCode_prefixed, (chain_exit_0 w Htsc). split.
    + intros (args & Hp & Hb).
      apply (pipeline_fulfilled w args Hfiles) in Hp
        as (Hreach & prev & Hprev & Hc).
      apply onCompiled_fulfilled in Hc as (Hmsg & Hs).
      apply settle_fulfilled in Hs as (Herrs & Hci & Hstats & ->).
      apply onBuilt_fulfilled in Hb as (Hmeasure & Hprint). simpl in Hprint.
      repeat split; auto.
      intros Hflag. destruct (Hstats Hflag) as (s & Hs & Hw).
      exists s. split; [| exact Hw].
      destruct (compiler_run w); [discriminate Hs | simpl in Hs; congruence].
    + intros (Hreach & Hmsg & Herrs & Hci & Hstats & Hmeasure & Hprint).
      destruct (pipeline_reaches_build w Hreach) as (prev & Hprev & _).
      exists {| stats := stats_of (compiler_run w);
                previousFileSizes := prev;
                ra_warnings :=
                  warnings (formatWebpackMessages w
                              (rawMessages (compiler_run w))) |}.
      split.
      * apply (pipeline_fulfilled w _ Hfiles). split; [exact Hreach |].
        exists prev. split; [exact Hprev |].
        apply onCompiled_fulfilled. split; [exact Hmsg |].
        apply settle_fulfilled. repeat split; auto.
        intros Hflag. destruct (Hstats Hflag) as (st & Hr & Hw).
        exists st. rewrite Hr. split; [reflexivity | exact Hw].
      * apply onBuilt_fulfilled. split; [exact Hmeasure | exact Hprint].
  - rewrite main_guard_failed by exact Hfiles. split; [discriminate |].
    intros (Hreach & _). apply reachesBuild_guard in Hreach. congruence.
Qed.

Lemma exit_code_0_without_tolerance_witness :
  exitCode (main (Sample.world ["--stats"] (Some "false") None
                    (inr (Sample.stats [] ["w1"])))) = Some 0.
Proof.
  apply (exit_code_0_without_tolerance
           (Sample.world ["--stats"] (Some "false") None
              (inr (Sample.stats [] ["w1"]))) eq_refl).
  repeat split.
  - discriminate.
  - left. reflexivity.
  - intros _. by exists (Sample.stats [] ["w1"]).
  - by exists Sample.after.
Defined.

(** ** More on [getFilesTotalSize] *)

Lemma total_size_delete r (o : gmap string Z) k :
  getFilesTotalSize {| root := r; sizes := Some (delete k o) |}
  = getFilesTotalSize {| root := r; sizes := Some o |} - prop o k.
Proof.
  unfold prop. destruct (o !! k) as [old|] eqn:Hk; simpl.
  - rewrite <- (insert_delete_id o k old Hk) at 2.
    rewrite total_size_insert by apply lookup_delete_eq. lia.
  - rewrite delete_id by exact Hk. lia.
Qed.

(** X5: how the total follows a change of the snapshot: writing the size [v]
    for a file replaces the file's old contribution (0 when the file was not
    in the snapshot) by [v], and removing a file takes its contribution
    away; the folder name plays no part. *)
Theorem total_size_follows_updates r r' (o : gmap string Z) k v :
  getFilesTotalSize {| root := r; sizes := Some (<[k := v]> o) |}
  = getFilesTotalSize {| root := r'; sizes := Some o |} - prop o k + v
  ∧ getFilesTotalSize {| root := r; sizes := Some (delete k o) |}
    = getFilesTotalSize {| root := r'; sizes := Some o |} - prop o k.
Proof.
  split.
  - rewrite <- insert_delete_eq.
    rewrite total_size_insert by apply lookup_delete_eq.
    rewrite (total_size_delete r). rewrite !total_size_values. lia.
  - rewrite (total_size_delete r). rewrite !total_size_values. lia.
Qed.

Lemma total_size_nonneg r (o : gmap string Z) :
  (∀ k v, o !! k = Some v → 0 ≤ v) →
  0 ≤ getFilesTotalSize {| root := r; sizes := Some o |}.
Proof.
  induction o as [|k v o Hk IH] using map_ind; intros Hpos.
  - rewrite total_size_empty. lia.
  - rewrite total_size_insert by exact Hk.
    assert (0 ≤ v) by (apply (Hpos k); apply lookup_insert_eq).
    assert (0 ≤ getFilesTotalSize {| root := r; sizes := Some o |}).
    { apply IH. intros k' v' Hk'. apply (Hpos k').
      rewrite lookup_insert_ne; [exact Hk' | congruence]. }
    lia.
Qed.

(** X6: when no file of the snapshot has a negative size, the total is not
    negative and no single file is larger than the total. *)
Theorem total_size_bounds r (o : gmap string Z) :
  (∀ k v, o !! k = Some v → 0 ≤ v) →
  0 ≤ getFilesTotalSize {| root := r; sizes := Some o |}
  ∧ (∀ k v, o !! k = Some v →
            v ≤ getFilesTotalSize {| root := r; sizes := Some o |}).
Proof.
  intros Hpos. split; [by apply total_size_nonneg |].
  intros k v Hk.
  pose proof (total_size_delete r o k) as Hdel.
  unfold prop in Hdel. rewrite Hk in Hdel. simpl in Hdel.
  assert (0 ≤ getFilesTotalSize {| root := r; sizes := Some (delete k o) |}).
  { apply total_size_nonneg. intros k' v' Hk'.
    apply lookup_delete_Some in Hk' as [_ Hk']. by apply (Hpos k'). }
  lia.
Qed.

Lemma total_size_bounds_witness :
  0 ≤ getFilesTotalSize Sample.before
  ∧ 200 ≤ getFilesTotalSize Sample.before.
Proof.
  assert (Hpos : ∀ k v,
             (<["a" := 100]> (<["b" := 200]> ∅) : gmap string Z) !! k = Some v
             → 0 ≤ v).
  { intros k v.
    rewrite lookup_insert. case_decide; [intros [= <-]; lia |].
    rewrite lookup_insert. case_decide; [intros [= <-]; lia |].
    rewrite lookup_empty. discriminate. }
  destruct (total_size_bounds "/app/build" _ Hpos) as [Hsum Hmax].
  split; [exact Hsum |]. apply (Hmax "b"). reflexivity.
Defined.

(** ** The CI variable *)

Lemma lower_ascii_idemp c : Js.lower_ascii (Js.lower_ascii c) = Js.lower_ascii c.
Proof. destruct c as [[] [] [] [] [] [] [] []]; reflexivity. Qed.

Lemma toLowerCase_idemp s : Js.toLowerCase (Js.toLowerCase s) = Js.toLowerCase s.
Proof.
  induction s as [|c s IH]; [reflexivity |].
  simpl. rewrite lower_ascii_idemp, IH. reflexivity.
Qed.

(** X7: whether warnings are fatal depends on the CI variable only up to
    letter case: a run whose CI value is the lower-cased CI value of another
    treats warnings the same way.  So [TRUE], [True] and [true] all make
    warnings fatal, and [FALSE], [False] and [false] all do not. *)
Theorem CI_is_read_case_insensitively w w' :
  env_CI w' = Js.toLowerCase <$> env_CI w →
  treatWarningsAsErrors w' = treatWarningsAsErrors w.
Proof.
  unfold treatWarningsAsErrors. intros ->.
  destruct (env_CI w) as [s|]; [| reflexivity]. simpl.
  rewrite toLowerCase_idemp. f_equal.
  destruct s; reflexivity.
Qed.

Lemma CI_is_read_case_insensitively_witness :
  treatWarningsAsErrors
    (Sample.world [] (Some "true") None (inr (Sample.stats [] [])))
  = treatWarningsAsErrors
      (Sample.world [] (Some "TRUE") None (inr (Sample.stats [] []))).
Proof.
  apply (CI_is_read_case_insensitively
           (Sample.world [] (Some "TRUE") None (inr (Sample.stats [] [])))
           (Sample.world [] (Some "true") None (inr (Sample.stats [] [])))).
  reflexivity.
Defined.

(** * Properties of [config/webpack.prod.config.js] *)

(** ** Endings of strings *)

Lemma list_ascii_of_string_app s t :
  list_ascii_of_string (s ++ t)
  = (list_ascii_of_string s ++ list_ascii_of_string t)%list.
Proof. induction s as [|c s IH]; simpl; [reflexivity | by rewrite IH]. Qed.

Lemma endsWith_suffix s suffix :
  Config.endsWith s suffix = true
  ↔ list_ascii_of_string suffix `suffix_of` list_ascii_of_string s.
Proof. unfold Config.endsWith. by rewrite bool_decide_eq_true. Qed.

(** [s.endsWith(suffix)] holds exactly when [s] is something followed by
    [suffix]. *)
Lemma endsWith_spec s suffix :
  Config.endsWith s suffix = true ↔ ∃ p, s = p ++ suffix.
Proof.
  rewrite endsWith_suffix. split.
  - intros [k Hk]. exists (string_of_list_ascii k).
    rewrite <- (string_of_list_ascii_of_string s), Hk.
    rewrite <- (string_of_list_ascii_of_string
                  (string_of_list_ascii k ++ suffix)).
    rewrite list_ascii_of_string_app, list_ascii_of_string_of_list_ascii.
    reflexivity.
  - intros [p ->]. exists (list_ascii_of_string p).
    apply list_ascii_of_string_app.
Qed.

(** Two endings of one string: one of them is an ending of the other. *)
Lemma endsWith_incompatible s a b :
  Config.endsWith s a = true →
  Config.endsWith a b = false → Config.endsWith b a = false →
  Config.endsWith s b = false.
Proof.
  intros Ha Hab Hba. destruct (Config.endsWith s b) eqn:Hb; [| reflexivity].
  apply endsWith_suffix in Ha, Hb.
  apply suffix_prefix_reverse in Ha, Hb.
  destruct (prefix_weak_total _ _ _ Ha Hb) as [H|H];
    apply suffix_prefix_reverse, endsWith_suffix in H; congruence.
Qed.

(** ** The asset manifest *)

Lemma assign_other (manifest : gmap string string) key value k :
  key ≠ k → Config.assign manifest key value !! k = manifest !! k.
Proof.
  intros Hk. unfold Config.assign.
  destruct (String.eqb key "__proto__"); [reflexivity |].
  by apply lookup_insert_ne.
Qed.

Lemma assign_proto (manifest : gmap string string) key value :
  Config.assign manifest key value !! "__proto__" = manifest !! "__proto__".
Proof.
  unfold Config.assign.
  destruct (String.eqb_spec key "__proto__") as [Hk|Hk]; [reflexivity |].
  by apply lookup_insert_ne.
Qed.

Lemma manifestFiles_keeps (seed : gmap string string) files k :
  (∀ f, f ∈ files → Config.fileKey f ≠ k) →
  Config.manifestFiles seed files !! k = seed !! k.
Proof.
  unfold Config.manifestFiles. revert seed.
  induction files as [|f files IH]; intros seed Hk; [reflexivity |].
  simpl. rewrite IH by (intros g Hg; apply Hk; by right).
  apply assign_other. apply Hk. by left.
Qed.

Lemma manifestFiles_proto (seed : gmap string string) files :
  Config.manifestFiles seed files !! "__proto__" = seed !! "__proto__".
Proof.
  unfold Config.manifestFiles. revert seed.
  induction files as [|f files IH]; intros seed; [reflexivity |].
  simpl. rewrite IH. apply assign_proto.
Qed.

Lemma manifestFiles_app (seed : gmap string string) files files' :
  Config.manifestFiles seed (files ++ files')
  = Config.manifestFiles (Config.manifestFiles seed files) files'.
Proof. apply foldl_app. Qed.

(** X8: in the manifest that [generate] returns, the entry of a key is the
    path of the last file with that key (files without a name share the
    empty key), and a key that no file has keeps the entry of the seed.  The
    one key that is never stored is [__proto__]: a file of that name leaves
    the manifest as it was. *)
Theorem manifest_last_file_wins (seed : gmap string string) files eps m :
  Config.generate seed files eps = inr m →
  (∀ k, (∀ f, f ∈ files → Config.fileKey f ≠ k) →
        Config.files m !! k = seed !! k)
  ∧ (∀ before f after,
       files = (before ++ f :: after)%list →
       Config.fileKey f ≠ "__proto__" →
       (∀ g, g ∈ after → Config.fileKey g ≠ Config.fileKey f) →
       Config.files m !! Config.fileKey f = Some (Config.path f))
  ∧ Config.files m !! "__proto__" = seed !! "__proto__".
Proof.
  unfold Config.generate. destruct (Config.main eps); [| discriminate].
  intros [= <-]. simpl. split; [| split].
  - apply manifestFiles_keeps.
  - intros before f after -> Hproto Hafter.
    rewrite manifestFiles_app.
    change (Config.manifestFiles ?s (f :: after))
      with (Config.manifestFiles
              (Config.assign s (Config.fileKey f) (Config.path f)) after).
    rewrite manifestFiles_keeps by exact Hafter.
    unfold Config.assign.
    destruct (String.eqb_spec (Config.fileKey f) "__proto__");
      [contradiction | apply lookup_insert_eq].
  - apply manifestFiles_proto.
Qed.

Lemma manifest_last_file_wins_witness :
  let a1 := {| Config.name := Some "main.js";
               Config.path := "/static/js/main.1.js" |} in
  let a2 := {| Config.name := Some "main.js";
               Config.path := "/static/js/main.2.js" |} in
  ∃ m, Config.generate ∅ [a1; a2] {| Config.main := Some [] |} = inr m
       ∧ Config.files m !! "main.js" = Some "/static/js/main.2.js".
Proof.
  intros a1 a2. eexists. split; [reflexivity |].
  apply (proj1 (proj2 (manifest_last_file_wins ∅ [a1; a2]
                         {| Config.main := Some [] |} _ eq_refl))
           [a1] a2 []);
    [reflexivity | discriminate |].
  intros g Hg. inversion Hg.
Defined.

(** X9: [generate] returns as entrypoints the list of the [main]
    entrypoint with exactly the names that end in [.map] taken out: the
    names that stay keep their places and their repetitions.  The manifest's
    files are what the reduction made them; without a [main] entrypoint
    [generate] throws. *)
Theorem manifest_entrypoints_drop_source_maps (seed : gmap string string)
    files eps :
  (Config.main eps = None → ∃ e, Config.generate seed files eps = inl e)
  ∧ (∀ main, Config.main eps = Some main →
       ∃ m keep,
         Config.generate seed files eps = inr m
         ∧ Config.files m = Config.manifestFiles seed files
         ∧ (∀ fileName,
              keep fileName = true ↔ ¬ ∃ p, fileName = p ++ ".map")
         ∧ Config.entrypoints m = List.filter keep main).
Proof.
  unfold Config.generate. split.
  - intros ->. by eexists.
  - intros main ->.
    eexists. exists (fun fileName => negb (Config.endsWith fileName ".map")).
    split; [reflexivity |]. simpl. split; [reflexivity |].
    split; [| reflexivity].
    intros fileName. rewrite negb_true_iff, <- endsWith_spec.
    destruct (Config.endsWith fileName ".map"); split; congruence.
Qed.

Lemma manifest_entrypoints_drop_source_maps_witness :
  ∃ m, Config.generate ∅ []
         {| Config.main := Some ["static/js/main.js"; "static/js/main.js.map";
                                 "static/css/main.css";
                                 "static/js/main.js"] |} = inr m
       ∧ Config.entrypoints m
         = ["static/js/main.js"; "static/css/main.css"; "static/js/main.js"].
Proof.
  destruct (proj2 (manifest_entrypoints_drop_source_maps ∅ []
                     {| Config.main := Some ["static/js/main.js";
                                             "static/js/main.js.map";
                                             "static/css/main.css";
                                             "static/js/main.js"] |})
              _ eq_refl) as (m & keep & Hm & _).
  exists m. split; [exact Hm |].
  injection Hm as <-. reflexivity.
Defined.

(** ** Source-map file names *)

Lemma replaceBackslashes_chars s :
  (Config.backslash ∉ list_ascii_of_string (Config.replaceBackslashes s))
  ∧ String.length (Config.replaceBackslashes s) = String.length s.
Proof.
  induction s as [|c s [IHn IHl]]; simpl.
  - split; [apply not_elem_of_nil | reflexivity].
  - split; [| by rewrite IHl].
    apply not_elem_of_cons. split; [| exact IHn].
    destruct (Ascii.eqb_spec c Config.backslash); [discriminate | congruence].
Qed.

(** X10: whatever [path.relative] answers, the file name given to the source
    map has no backslash in it and is as long as that answer. *)
Theorem devtool_file_name_has_no_backslash e absoluteResourcePath :
  (Config.backslash
     ∉ list_ascii_of_string
         (Config.devtoolModuleFilenameTemplate e absoluteResourcePath))
  ∧ String.length (Config.devtoolModuleFilenameTemplate e absoluteResourcePath)
    = String.length
        (Config.path_relative e (Config.appSrc e) absoluteResourcePath).
Proof. apply replaceBackslashes_chars. Qed.

(** ** Style loaders and rules *)

(** After css-loader, [getStyleLoaders] puts one loader, or three when a
    preprocessor is named. *)
Lemma loaders_after_css e cssOptions preProcessor i l :
  Config.getStyleLoaders e cssOptions preProcessor !! i = Some l →
  Config.is_cssLoader l = true →
  (length (Config.getStyleLoaders e cssOptions preProcessor) - (i + 1))%nat
  = (if Js.truthy (Some preProcessor) then 3 else 1)%nat
  ∧ Config.options l = Config.OCss cssOptions.
Proof.
  unfold Config.getStyleLoaders.
  destruct (Config.isProduction e), (Js.truthy (Some preProcessor)); simpl;
    repeat (destruct i as [|i]; simpl; try discriminate);
    intros [= <-]; try discriminate; intros _; split; reflexivity.
Qed.

(** X11: in every rule of the configuration, the [importLoaders] given to
    css-loader is the number of loaders that follow css-loader in the rule's
    [use] array: 1 for plain CSS, 3 when sass-loader is in the chain. *)
Theorem importLoaders_counts_the_loaders_after_css e r i l cssOptions :
  r ∈ Config.module_rules e →
  Config.use r !! i = Some l →
  Config.options l = Config.OCss cssOptions →
  Config.importLoaders cssOptions = (length (Config.use r) - (i + 1))%nat.
Proof.
  intros Hr Hl Hopts.
  assert (Hcss : Config.is_cssLoader l = true)
    by (unfold Config.is_cssLoader; rewrite Hopts; reflexivity).
  unfold Config.module_rules, Config.rules in Hr.
  repeat (apply elem_of_cons in Hr as [-> | Hr]); [..| inversion Hr];
    simpl in Hl;
    try (destruct i; discriminate Hl);
    try (destruct i as [|i]; [injection Hl as <-; discriminate Hcss
                             | destruct i; discriminate Hl]).
  all: destruct (loaders_after_css _ _ _ _ _ Hl Hcss) as [Hn Ho];
    simpl; rewrite Hn; rewrite Hopts in Ho; injection Ho as ->; reflexivity.
Qed.

Lemma importLoaders_counts_the_loaders_after_css_witness :
  let e := {| Config.NODE_ENV := Some "production";
              Config.GENERATE_SOURCEMAP := None;
              Config.publicUrlOrPath := "/";
              Config.appSrc := "/app/src";
              Config.require_resolve := fun m => "/app/node_modules/" ++ m;
              Config.MiniCssExtractPlugin_loader := "mini-css-extract-plugin";
              Config.path_relative := fun _ p => p |} in
  ∃ r l o, Config.rules e !! 4%nat = Some r
           ∧ Config.use r !! 1%nat = Some l
           ∧ Config.options l = Config.OCss o
           ∧ length (Config.use r) = 5%nat
           ∧ Config.importLoaders o = 3%nat.
Proof.
  intros e.
  destruct (Config.rules e !! 4%nat) as [r|] eqn:Hr; [| discriminate Hr].
  destruct (Config.use r !! 1%nat) as [l|] eqn:Hl;
    [| injection Hr as <-; discriminate Hl].
  destruct (Config.options l) as [| o | | | |] eqn:Ho;
    try (injection Hr as <-; injection Hl as <-; discriminate Ho).
  exists r, l, o.
  split; [reflexivity |]. split; [exact Hl |]. split; [exact Ho |].
  split; [injection Hr as <-; reflexivity |].
  rewrite (importLoaders_counts_the_loaders_after_css e r 1 l o);
    [injection Hr as <-; reflexivity | | exact Hl | exact Ho].
  injection Hr as <-. unfold Config.module_rules, Config.rules.
  rewrite !elem_of_cons. tauto.
Defined.

Lemma toLowerCase_app s t :
  Js.toLowerCase (s ++ t) = Js.toLowerCase s ++ Js.toLowerCase t.
Proof. induction s as [|c s IH]; simpl; [reflexivity | by rewrite IH]. Qed.

Lemma endsWith_toLowerCase s suffix :
  Config.endsWith s suffix = true →
  Config.endsWith (Js.toLowerCase s) (Js.toLowerCase suffix) = true.
Proof.
  rewrite !endsWith_spec. intros [p ->]. exists (Js.toLowerCase p).
  apply toLowerCase_app.
Qed.

(** Settles [resource.endsWith(x)] for an ending [x] that cannot go with the
    ending [H] speaks of. *)
Ltac other_ending H x :=
  let E := fresh "E" in
  pose proof (endsWith_incompatible _ _ x H eq_refl eq_refl) as E;
  rewrite ?E.

Ltac other_endings H :=
  other_ending H ".avif"; other_ending H ".bmp"; other_ending H ".gif";
  other_ending H ".jpg"; other_ending H ".jpeg"; other_ending H ".png";
  other_ending H ".sass"; other_ending H ".module.sass";
  other_ending H ".js"; other_ending H ".mjs"; other_ending H ".jsx";
  other_ending H ".ts"; other_ending H ".tsx"; other_ending H ".html";
  other_ending H ".json".

(** X12: a resource whose name ends in [.css] or in [.scss] is taken by
    exactly one rule of the configuration, and this is the rule: for [.css],
    the rule whose test is [cssModuleRegex] when the name ends in
    [.module.css] and the rule whose test is [cssRegex] otherwise, with the
    style loaders for one imported loader; for [.scss], the rule whose test
    is [sassModuleRegex] when the name ends in [.module.scss] and the rule
    whose test is [sassRegex] otherwise, with the style loaders for three
    imported loaders and [sass-loader].  The rule asks for CSS modules
    exactly in the module case.  Neither the Babel rule nor the fallback rule
    takes the resource. *)
Theorem stylesheet_is_taken_by_one_rule e resource :
  (Config.endsWith resource ".css" = true →
   ∃ r,
     List.filter (fun r => Config.applies r resource) (Config.module_rules e)
     = [r]
     ∧ Config.rules e
         !! (if Config.endsWith resource ".module.css" then 3 else 2)%nat
       = Some r
     ∧ Config.test r
       = [if Config.endsWith resource ".module.css"
          then Config.cssModuleRegex else Config.cssRegex]
     ∧ Config.use r
       = Config.getStyleLoaders e
           {| Config.importLoaders := 1;
              Config.sourceMap := if Config.isProduction e
                                  then Config.shouldUseSourceMap e else false;
              Config.modules := Config.endsWith resource ".module.css" |}
           EmptyString
     ∧ Config.type r = None)
  ∧ (Config.endsWith resource ".scss" = true →
     ∃ r,
       List.filter (fun r => Config.applies r resource) (Config.module_rules e)
       = [r]
       ∧ Config.rules e
           !! (if Config.endsWith resource ".module.scss" then 5 else 4)%nat
         = Some r
       ∧ Config.test r
         = [if Config.endsWith resource ".module.scss"
            then Config.sassModuleRegex else Config.sassRegex]
       ∧ Config.use r
         = Config.getStyleLoaders e
             {| Config.importLoaders := 3;
                Config.sourceMap := if Config.isProduction e
                                    then Config.shouldUseSourceMap e
                                    else false;
                Config.modules := Config.endsWith resource ".module.scss" |}
             "sass-loader"
       ∧ Config.type r = None).
Proof.
  split; intros H; pose proof (endsWith_toLowerCase _ _ H) as Hlow.
  - destruct (Config.endsWith resource ".module.css") eqn:Hmodule;
      eexists; (split; [| repeat split; reflexivity]);
      unfold Config.module_rules, Config.rules, Config.applies,
        Config.regex_test, Config.cssRegex, Config.cssModuleRegex,
        Config.sassRegex, Config.sassModuleRegex;
      cbn -[Config.endsWith Config.getStyleLoaders Js.toLowerCase];
      cbn in Hlow; other_endings H; other_endings Hlow;
      other_ending H ".scss"; other_ending H ".module.scss";
      rewrite ?H, ?Hmodule; reflexivity.
  - destruct (Config.endsWith resource ".module.scss") eqn:Hmodule;
      eexists; (split; [| repeat split; reflexivity]);
      unfold Config.module_rules, Config.rules, Config.applies,
        Config.regex_test, Config.cssRegex, Config.cssModuleRegex,
        Config.sassRegex, Config.sassModuleRegex;
      cbn -[Config.endsWith Config.getStyleLoaders Js.toLowerCase];
      cbn in Hlow; other_endings H; other_endings Hlow;
      other_ending H ".css"; other_ending H ".module.css";
      rewrite ?H, ?Hmodule; reflexivity.
Qed.

Lemma stylesheet_is_taken_by_one_rule_witness :
  let e := {| Config.NODE_ENV := Some "production";
              Config.GENERATE_SOURCEMAP := None;
              Config.publicUrlOrPath := "/";
              Config.appSrc := "/app/src";
              Config.require_resolve := fun m => "/app/node_modules/" ++ m;
              Config.MiniCssExtractPlugin_loader := "mini-css-extract-plugin";
              Config.path_relative := fun _ p => p |} in
  ∃ r,
    List.filter (fun r => Config.applies r "/app/src/style.module.scss")
                (Config.module_rules e) = [r]
    ∧ Config.test r = [Config.sassModuleRegex]
    ∧ length (Config.use r) = 5%nat.
Proof.
  intros e.
  destruct (proj2 (stylesheet_is_taken_by_one_rule
                     e "/app/src/style.module.scss") eq_refl)
    as (r & Hfilter & _ & Htest & Huse & _).
  exists r. split; [exact Hfilter |]. split; [exact Htest |].
  rewrite Huse. reflexivity.
Defined.

(** Tries every ending the rules mention. *)
Ltac all_other_endings H :=
  try other_ending H ".avif"; try other_ending H ".bmp";
  try other_ending H ".gif"; try other_ending H ".jpg";
  try other_ending H ".jpeg"; try other_ending H ".png";
  try other_ending H ".css"; try other_ending H ".module.css";
  try other_ending H ".scss"; try other_ending H ".module.scss";
  try other_ending H ".sass"; try other_ending H ".module.sass";
  try other_ending H ".js"; try other_ending H ".mjs";
  try other_ending H ".jsx"; try other_ending H ".ts";
  try other_ending H ".tsx"; try other_ending H ".html";
  try other_ending H ".json".

(** X13: the rules are not alternatives of one another: the last of them,
    the fallback rule of type [asset/resource], has no test and takes every
    resource that its exclusions do not name.  A resource whose name ends in
    [.sass] is taken by two rules and no other: the SASS rule that fits it
    (for modules or plain) and the fallback rule, whose exclusions name
    [.scss] but not [.sass].  A resource whose name ends in [.png] is taken
    by the second of the inline-asset rules and by the fallback rule. *)
Theorem fallback_rule_overlaps e resource :
  (Config.endsWith resource ".sass" = true →
   ∃ r fallback,
     List.filter (fun r => Config.applies r resource) (Config.module_rules e)
     = [r; fallback]
     ∧ Config.rules e
         !! (if Config.endsWith resource ".module.sass" then 5 else 4)%nat
       = Some r
     ∧ Config.test r
       = [if Config.endsWith resource ".module.sass"
          then Config.sassModuleRegex else Config.sassRegex]
     ∧ Config.use r
       = Config.getStyleLoaders e
           {| Config.importLoaders := 3;
              Config.sourceMap := if Config.isProduction e
                                  then Config.shouldUseSourceMap e else false;
              Config.modules := Config.endsWith resource ".module.sass" |}
           "sass-loader"
     ∧ last (Config.rules e) = Some fallback
     ∧ Config.test fallback = []
     ∧ Config.use fallback = []
     ∧ Config.type fallback = Some "asset/resource")
  ∧ (Config.endsWith resource ".png" = true →
     ∃ r fallback,
       List.filter (fun r => Config.applies r resource) (Config.module_rules e)
       = [r; fallback]
       ∧ Config.rules e !! 1%nat = Some r
       ∧ Config.use r = []
       ∧ Config.type r = Some "asset/inline"
       ∧ last (Config.rules e) = Some fallback
       ∧ Config.test fallback = []
       ∧ Config.use fallback = []
       ∧ Config.type fallback = Some "asset/resource").
Proof.
  split; intros H; pose proof (endsWith_toLowerCase _ _ H) as Hlow.
  - destruct (Config.endsWith resource ".module.sass") eqn:Hmodule;
      eexists; eexists; (split; [| repeat split; reflexivity]);
      unfold Config.module_rules, Config.rules, Config.applies,
        Config.regex_test, Config.cssRegex, Config.cssModuleRegex,
        Config.sassRegex, Config.sassModuleRegex;
      cbn -[Config.endsWith Config.getStyleLoaders Js.toLowerCase];
      cbn in Hlow; all_other_endings H; all_other_endings Hlow;
      rewrite ?H, ?Hmodule; reflexivity.
  - eexists; eexists; (split; [| repeat split; reflexivity]);
      unfold Config.module_rules, Config.rules, Config.applies,
        Config.regex_test, Config.cssRegex, Config.cssModuleRegex,
        Config.sassRegex, Config.sassModuleRegex;
      cbn -[Config.endsWith Config.getStyleLoaders Js.toLowerCase];
      cbn in Hlow; all_other_endings H; all_other_endings Hlow;
      rewrite ?H; reflexivity.
Qed.

Lemma fallback_rule_overlaps_witness :
  let e := {| Config.NODE_ENV := Some "production";
              Config.GENERATE_SOURCEMAP := None;
              Config.publicUrlOrPath := "/";
              Config.appSrc := "/app/src";
              Config.require_resolve := fun m => "/app/node_modules/" ++ m;
              Config.MiniCssExtractPlugin_loader := "mini-css-extract-plugin";
              Config.path_relative := fun _ p => p |} in
  ∃ r fallback,
    List.filter (fun r => Config.applies r "/app/src/theme.sass")
                (Config.module_rules e) = [r; fallback]
    ∧ Config.test r = [Config.sassRegex]
    ∧ Config.type fallback = Some "asset/resource".
Proof.
  intros e.
  destruct (proj1 (fallback_rule_overlaps e "/app/src/theme.sass") eq_refl)
    as (r & fallback & Hfilter & _ & Htest & _ & _ & _ & _ & Htype).
  exists r, fallback. split; [exact Hfilter |]. split; [exact Htest |].
  exact Htype.
Defined.

(** * Properties of the development-server script *)

Lemma start_then2_fulfilled {A B} (p : Start.Run A) a (k : A → Start.Run B) h :
  Start.result p = Fulfilled a →
  Start.then2 p k h
  = ((Start.trace p ++ Start.trace (k a))%list, Start.result (k a)).
Proof. destruct p as [t r]; simpl; intros ->; reflexivity. Qed.






(** ** No port *)

(** X14: when [choosePort] answers [null], the script logs [Port not found]
    at error level and stops there: it prepares no URL, creates no compiler
    and no server, registers no handler, opens no browser, and does not end
    the process with a failure code: the chain is fulfilled. *)
Theorem no_port_no_server w :
  Start.checkRequiredFiles w [appHtml (Start.paths w);
                              appIndexJs (Start.paths w)] = true →
  Start.checkBrowsers w = None →
  Start.choosePort w = inr None →
  Start.result (Start.run w) = Fulfilled ()
  ∧ Start.errorsLogged (Start.trace (Start.run w)) = ["Port not found"]
  ∧ Forall (fun ev => Start.is_serverEvent ev = false)
           (Start.trace (Start.run w)).
Proof.
  intros Hfiles Hb Hp.
  unfold Start.run, Start.main, Start.attempt. rewrite Hfiles, Hb, Hp.
  destruct (Js.truthy (Start.env_HOST w)); simpl;
    repeat split; repeat constructor.
Qed.

Lemma no_port_no_server_witness :
  Start.result (Start.run (Start.sample None None None None None))
  = Fulfilled ().
Proof.
  exact (proj1 (no_port_no_server (Start.sample None None None None None)
                  eq_refl eq_refl eq_refl)).
Defined.

(** ** Failures *)







(** ** The tolerance flag in the two scripts *)

(** X16: the two scripts read TSC_COMPILE_ON_ERROR differently.  The build
    script tolerates only for the value [true]; the development server is
    given the flag as soon as the variable is a non-empty string.  So
    whenever the build tolerates the server does, and they differ exactly on
    the non-empty values other than [true], among them [false]. *)
Theorem tolerance_flag_differs_between_scripts (w : World) (ws : Start.World) :
  Start.env_TSC_COMPILE_ON_ERROR ws = env_TSC_COMPILE_ON_ERROR w →
  (tscCompileOnError w = true → Start.tscCompileOnError ws = true)
  ∧ (Start.tscCompileOnError ws = true ∧ tscCompileOnError w = false
     ↔ ∃ s, env_TSC_COMPILE_ON_ERROR w = Some s
            ∧ s ≠ EmptyString ∧ s ≠ "true").
Proof.
  unfold Start.tscCompileOnError, tscCompileOnError. intros ->.
  destruct (env_TSC_COMPILE_ON_ERROR w) as [s|]; simpl.
  - destruct (String.eqb_spec s "true") as [Ht | Ht],
      (String.eqb_spec s EmptyString) as [He | He]; simpl.
    + congruence.
    + split; [reflexivity |]. split; [intros [_ [=]] |].
      intros (s' & [= <-] & _ & H). contradiction.
    + split; [discriminate |]. split; [intros [[=] _] |].
      intros (s' & [= <-] & H & _). contradiction.
    + split; [discriminate |]. split; [| auto]. intros _. by exists s.
  - split; [discriminate |]. split; [intros [[=] _] |].
    intros (s & [=] & _).
Qed.

Lemma tolerance_flag_differs_between_scripts_witness :
  Start.tscCompileOnError (Start.sample (Some "false") None None None None)
  = true
  ∧ tscCompileOnError
      (Sample.world [] None (Some "false") (inr (Sample.stats [] [])))
    = false.
Proof.
  apply (proj2 (tolerance_flag_differs_between_scripts
                  (Sample.world [] None (Some "false")
                     (inr (Sample.stats [] [])))
                  (Start.sample (Some "false") None None None None)
                  eq_refl)).
  exists "false". repeat split; discriminate.
Defined.

(** ** Listening *)

Lemma start_served w urls :
  Start.result (Start.main w) = Fulfilled (Some urls) →
  ∃ notice port,
    Start.main w
    = ((notice
        ++ [Start.Logged LInfo "Dev server settings:"
              [Start.ASettings (Start.tscCompileOnError w) (Start.protocol w)
                 (Start.DEFAULT_PORT w) (Start.HOST w)
                 (Start.isInteractive w)];
            Start.BrowsersChecked (appPath (Start.paths w))
              (Start.isInteractive w);
            Start.PortChosen (Start.HOST w) (Start.DEFAULT_PORT w);
            Start.UrlsPrepared (Start.protocol w) (Start.HOST w) port;
            Start.CompilerCreated (Start.appPackageJson_name w)
              (Start.tscCompileOnError w);
            Start.ProxyPrepared;
            Start.ServerConfigured (Start.lanUrlForConfig urls);
            Start.ServerCreated;
            Start.ListenRequested port (Start.HOST w);
            Start.HandlerRegistered "SIGINT";
            Start.HandlerRegistered "SIGTERM"]
        ++ (if Js.truthy (Start.env_CI w) then []
            else [Start.HandlerRegistered "stdin end"]))%list,
       Fulfilled (Some urls))
    ∧ Start.choosePort w = inr (Some port)
    ∧ Start.handlersRegistered notice = []
    ∧ Start.browsersOpened notice = [].
Proof.
  unfold Start.main, Start.attempt, Start.onPort, Start.serve.
  destruct (Start.checkRequiredFiles _ _); [| discriminate].
  destruct (Start.checkBrowsers w); [destruct (Js.truthy (Start.env_HOST w));
                                     discriminate |].
  destruct (Start.choosePort w) as [|[port|]];
    [destruct (Js.truthy (Start.env_HOST w)); discriminate | |
     destruct (Js.truthy (Start.env_HOST w)); discriminate].
  destruct (Start.prepareUrls w) as [|urls'];
    [destruct (Js.truthy (Start.env_HOST w)); discriminate |].
  destruct (Start.createCompiler w);
    [destruct (Js.truthy (Start.env_HOST w)); discriminate |].
  destruct (Start.prepareProxy w);
    [destruct (Js.truthy (Start.env_HOST w)); discriminate |].
  destruct (Start.createDevServerConfig w);
    [destruct (Js.truthy (Start.env_HOST w)); discriminate |].
  destruct (Start.new_WebpackDevServer w);
    [destruct (Js.truthy (Start.env_HOST w)); discriminate |].
  destruct (Js.truthy (Start.env_HOST w)), (Js.truthy (Start.env_CI w));
    simpl; intros [= <-].
  all: first
    [ exists []; exists port; repeat split; reflexivity
    | eexists [_; _; _; _]; exists port; repeat split; reflexivity ].
Qed.

Lemma onListen_answers w urls :
  (∀ e, Start.onListen w urls (Some e)
        = ([Start.Logged LError "Unable to start" [Start.AErr e]],
           Fulfilled ()))
  ∧ ∃ t, Start.onListen w urls None
         = ((t ++ [Start.BrowserOpened (Start.localUrlForBrowser urls)])%list,
            Fulfilled ())
         ∧ Start.handlersRegistered t = []
         ∧ Start.browsersOpened t = [].
Proof.
  split; [reflexivity |]. unfold Start.onListen.
  destruct (Start.isInteractive w),
    (Start.FAST_REFRESH w && Start.semver_lt w (Start.react_version w)
                               "16.10.0").
  - eexists [_; _; _]. repeat split; reflexivity.
  - eexists [_; _]. repeat split; reflexivity.
  - eexists [_; _]. repeat split; reflexivity.
  - eexists [_]. repeat split; reflexivity.
Qed.

(** What a run that was asked to listen registers, opens and logs. *)
Lemma served_run w urls :
  Start.result (Start.main w) = Fulfilled (Some urls) →
  Start.handlersRegistered (Start.trace (Start.run w))
  = ("SIGINT" :: "SIGTERM"
     :: (if Js.truthy (Start.env_CI w) then [] else ["stdin end"]))
  ∧ Start.result (Start.run w) = Fulfilled ()
  ∧ (Start.listen w = None →
     Start.browsersOpened (Start.trace (Start.run w))
     = [Start.localUrlForBrowser urls])
  ∧ (∀ e, Start.listen w = Some e →
          Start.browsersOpened (Start.trace (Start.run w)) = []
          ∧ last (Start.trace (Start.run w))
            = Some (Start.Logged LError "Unable to start" [Start.AErr e])).
Proof.
  intros Hmain.
  destruct (start_served w urls Hmain)
    as (notice & port & Hm & _ & Hnh & Hnb).
  destruct (onListen_answers w urls) as (Herr & t & Hok & Hth & Htb).
  assert (Hrun : Start.run w
                 = ((Start.trace (Start.main w)
                     ++ Start.trace (Start.onListen w urls (Start.listen w)))%list,
                    Start.result (Start.onListen w urls (Start.listen w)))).
  { unfold Start.run, Start.then_.
    apply (start_then2_fulfilled (Start.main w) (Some urls)). exact Hmain. }
  assert (Htr : Start.trace (Start.run w)
                = (Start.trace (Start.main w)
                   ++ Start.trace (Start.onListen w urls (Start.listen w)))%list)
    by (rewrite Hrun; reflexivity).
  assert (Hres : Start.result (Start.run w)
                 = Start.result (Start.onListen w urls (Start.listen w)))
    by (rewrite Hrun; reflexivity).
  rewrite Htr, Hres. clear Hrun Htr Hres.
  assert (Hh : Start.handlersRegistered (Start.trace (Start.main w))
               = "SIGINT" :: "SIGTERM"
                 :: (if Js.truthy (Start.env_CI w) then []
                     else ["stdin end"])).
  { rewrite Hm. unfold Start.trace, Start.handlersRegistered in *.
    cbn [fst]. rewrite !omap_app, Hnh.
    destruct (Js.truthy (Start.env_CI w)); reflexivity. }
  assert (Hb : Start.browsersOpened (Start.trace (Start.main w)) = []).
  { rewrite Hm. unfold Start.trace, Start.browsersOpened in *.
    cbn [fst]. rewrite !omap_app, Hnb.
    destruct (Js.truthy (Start.env_CI w)); reflexivity. }
  unfold Start.handlersRegistered, Start.browsersOpened in *.
  rewrite !omap_app, Hh, Hb.
  destruct (Start.listen w) as [e|].
  - rewrite Herr. simpl. rewrite app_nil_r.
    split; [reflexivity |]. split; [reflexivity |].
    split; [discriminate |].
    intros e' [= <-]. split; [reflexivity | apply last_snoc].
  - rewrite Hok. unfold Start.trace, Start.result. cbn [fst snd].
    rewrite !omap_app, Hth, Htb. simpl. rewrite app_nil_r.
    split; [reflexivity |]. split; [reflexivity |].
    split; [reflexivity | discriminate].
Qed.

(** X17: once the server has been asked to listen, handlers for SIGINT and
    SIGTERM are registered, and one for the end of stdin exactly when CI is
    unset or empty.  The browser is opened, at the local URL, exactly when
    [listen] reports no error; when it reports one, the script logs [Unable
    to start] with the error and does not end the process. *)
Theorem server_start w urls :
  Start.result (Start.main w) = Fulfilled (Some urls) →
  Start.handlersRegistered (Start.trace (Start.run w))
  = ("SIGINT" :: "SIGTERM"
     :: (if Js.truthy (Start.env_CI w) then [] else ["stdin end"]))
  ∧ Start.result (Start.run w) = Fulfilled ()
  ∧ (Start.listen w = None →
     Start.browsersOpened (Start.trace (Start.run w))
     = [Start.localUrlForBrowser urls])
  ∧ (∀ e, Start.listen w = Some e →
          Start.browsersOpened (Start.trace (Start.run w)) = []
          ∧ last (Start.trace (Start.run w))
            = Some (Start.Logged LError "Unable to start" [Start.AErr e])).
Proof. apply served_run. Qed.

Lemma server_start_witness :
  let w := Start.sample None None (Some "false") (Some 5678) None in
  Start.handlersRegistered (Start.trace (Start.run w)) = ["SIGINT"; "SIGTERM"]
  ∧ Start.browsersOpened (Start.trace (Start.run w))
    = ["http://localhost:5678"].
Proof.
  intros w.
  destruct (server_start w
              {| Start.lanUrlForConfig := Some "192.168.0.2";
                 Start.localUrlForBrowser := "http://localhost:5678" |}
              eq_refl) as (Hh & _ & Hb & _).
  split; [exact Hh | exact (Hb eq_refl)].
Defined.

(** ** Settings *)

(** X18: the host is the HOST variable, or [0.0.0.0] when the variable is
    unset or empty.  Only when it is set does the script announce it, in four
    lines before its settings; the last of the four comes from a call of
    [log] without a message and reads [undefined]. *)
Theorem host_setting_and_notice w :
  Start.checkRequiredFiles w [appHtml (Start.paths w);
                              appIndexJs (Start.paths w)] = true →
  (Start.env_HOST w = None ∨ Start.env_HOST w = Some EmptyString →
     Start.HOST w = "0.0.0.0"
     ∧ ∃ rest,
         Start.trace (Start.main w)
         = Start.Logged LInfo "Dev server settings:"
             [Start.ASettings (Start.tscCompileOnError w) (Start.protocol w)
                (Start.DEFAULT_PORT w) "0.0.0.0" (Start.isInteractive w)]
           :: rest)
  ∧ (∀ h, Start.env_HOST w = Some h → h ≠ EmptyString →
       Start.HOST w = h
       ∧ ∃ rest,
           Start.trace (Start.main w)
           = (Start.Logged LInfo
                ("Attempting to bind to HOST environment variable: " ++ h) []
              :: Start.Logged LLog
                   "If this was unintentional, check that you haven't mistakenly set it in your shell."
                   []
              :: Start.Logged LLog
                   "Learn more here: https://cra.link/advanced-config" []
              :: Start.Logged LLog "undefined" []
              :: Start.Logged LInfo "Dev server settings:"
                   [Start.ASettings (Start.tscCompileOnError w)
                      (Start.protocol w) (Start.DEFAULT_PORT w) h
                      (Start.isInteractive w)]
              :: rest)).
Proof.
  intros Hfiles. unfold Start.main, Start.HOST. rewrite Hfiles. split.
  - intros Hhost.
    assert (Ht : Js.truthy (Start.env_HOST w) = false)
      by (destruct Hhost as [-> | ->]; reflexivity).
    rewrite Ht. split; [reflexivity |]. simpl. by eexists.
  - intros h Hh Hne.
    assert (Ht : Js.truthy (Start.env_HOST w) = true)
      by (rewrite Hh; by apply truthy_Some).
    rewrite Ht, Hh. split; [reflexivity |]. simpl. by eexists.
Qed.

Lemma host_setting_and_notice_witness :
  Start.HOST (Start.sample None (Some "127.0.0.1") None None None)
  = "127.0.0.1"
  ∧ Start.HOST (Start.sample None None None None None) = "0.0.0.0".
Proof.
  split.
  - refine (proj1 (proj2 (host_setting_and_notice
                            (Start.sample None (Some "127.0.0.1") None None
                               None) eq_refl)
                         "127.0.0.1" eq_refl _)).
    discriminate.
  - refine (proj1 (proj1 (host_setting_and_notice
                            (Start.sample None None None None None) eq_refl)
                         _)).
    left. reflexivity.
Defined.

(** ** The CI variable across the three files *)

(** X19: only the build script takes a spelling of [false] in CI for
    "off".  With such a value the build does not make warnings fatal, yet
    the configuration turns the minifier's parallelism off and the
    development server registers no handler for the end of stdin, as they
    do for every other non-empty value. *)
Theorem CI_false_is_off_for_the_build_only (w : World) (ws : Start.World) s :
  env_CI w = Some s → Start.env_CI ws = Some s →
  Js.toLowerCase s = "false" →
  treatWarningsAsErrors w = false
  ∧ Config.terser_parallel (Some s) = false
  ∧ (∀ urls, Start.result (Start.main ws) = Fulfilled (Some urls) →
             Start.handlersRegistered (Start.trace (Start.run ws))
             = ["SIGINT"; "SIGTERM"]).
Proof.
  intros Hw Hws Hlow.
  assert (Hne : s ≠ EmptyString) by (intros ->; discriminate Hlow).
  assert (Ht : Js.truthy (Some s) = true) by (by apply truthy_Some).
  split; [| split].
  - apply treatWarningsAsErrors_false. right. right. by exists s.
  - unfold Config.terser_parallel. rewrite Ht. reflexivity.
  - intros urls Hmain.
    rewrite (proj1 (served_run ws urls Hmain)), Hws, Ht. reflexivity.
Qed.

Lemma CI_false_is_off_for_the_build_only_witness :
  treatWarningsAsErrors
    (Sample.world [] (Some "False") None (inr (Sample.stats [] ["w"])))
  = false
  ∧ Config.terser_parallel (Some "False") = false.
Proof.
  destruct (CI_false_is_off_for_the_build_only
              (Sample.world [] (Some "False") None
                 (inr (Sample.stats [] ["w"])))
              (Start.sample None None (Some "False") (Some 5678) None)
              "False" eq_refl eq_refl eq_refl) as (H1 & H2 & _).
  split; [exact H1 | exact H2].
Defined.

(** ** The report of a fulfilled build *)

Lemma onBuilt_logs_no_error w args :
  Forall (fun ev => ∀ msg a, ev ≠ Logged LError msg a)
         (trace (onBuilt w args)).
Proof.
  unfold onBuilt. along_trace; apply Forall_emit; discriminate.
Qed.

(** X20: the fulfilment handler calls [info] with [Compiled successfully.]
    exactly when the build carries no warning.  Exactly when there is a
    warning it calls [warn] with the message [Compiled with warnings.] and one
    more argument, the warnings joined by blank lines into one string; the
    logger hands that argument to [console.dir], and how the console renders
    it is not the handler's doing.  The handler itself never logs at error
    level and never ends the process. *)
Theorem build_report w args :
  (Logged LInfo ("Compiled successfully." ++ Js.nl) []
     ∈ trace (onBuilt w args)
   ↔ ra_warnings args = [])
  ∧ (Logged LWarn ("Compiled with warnings." ++ Js.nl)
            [AStr (Js.join (Js.nl ++ Js.nl) (ra_warnings args))]
       ∈ trace (onBuilt w args)
     ↔ ra_warnings args ≠ [])
  ∧ errorsLogged (trace (onBuilt w args)) = []
  ∧ (∀ c, result (onBuilt w args) ≠ Exited c).
Proof.
  assert (Herr : errorsLogged (trace (onBuilt w args)) = []).
  { pose proof (onBuilt_logs_no_error w args) as H.
    induction H as [|ev t Hev _ IH]; [reflexivity |].
    destruct ev; try exact IH. destruct l; try exact IH.
    by destruct (Hev msg args0). }
  assert (Hexit : ∀ c, result (onBuilt w args) ≠ Exited c).
  { intros c Hc. pose proof (onBuilt_exitsWith1 w args c Hc) as ->.
    revert Hc. unfold onBuilt, call_with, call.
    destruct (0 <? length (ra_warnings args))%nat,
      (measure_after w), (printFileSizesAfterBuild w (stats args));
      discriminate. }
  split; [| split; [| split; [exact Herr | exact Hexit]]].
  - unfold onBuilt, call_with, call.
    destruct (ra_warnings args) as [|x xs]; simpl;
      destruct (measure_after w), (printFileSizesAfterBuild w (stats args));
      simpl; rewrite !list_elem_of_In; simpl; split; try tauto;
      try discriminate;
      intros H; repeat (destruct H as [H | H]; [discriminate H |]);
      contradiction.
  - unfold onBuilt, call_with, call.
    destruct (ra_warnings args) as [|x xs]; simpl;
      destruct (measure_after w), (printFileSizesAfterBuild w (stats args));
      simpl; rewrite !list_elem_of_In; simpl; split; try tauto;
      try discriminate; try congruence;
      intros H; repeat (destruct H as [H | H]; [discriminate H |]);
      contradiction.
Qed.

Lemma build_report_witness :
  Logged LInfo ("Compiled successfully." ++ Js.nl) []
  ∈ trace (onBuilt (Sample.world [] None None (inr (Sample.stats [] [])))
             {| stats := Some (Sample.stats [] []);
                previousFileSizes := Sample.before;
                ra_warnings := [] |}).
Proof.
  apply (proj1 (build_report
                  (Sample.world [] None None (inr (Sample.stats [] [])))
                  {| stats := Some (Sample.stats [] []);
                     previousFileSizes := Sample.before;
                     ra_warnings := [] |})).
  reflexivity.
Defined.

Lemma build_exit_code_is_0_or_1_witness : (1 = 0 ∨ 1 = 1)%Z.
Proof.
  apply (proj2 (proj2 (build_exit_code_is_0_or_1
                         (Sample.world [] None None
                            (inr (Sample.stats ["E"] [])))))).
  reflexivity.
Defined.

(** * The stats file, the rejections of the pipeline and the failed write *)

Lemma pipeline_noStatsWrite_transport w err :
  compiler_run w = inl err → Forall noStatsWrite (trace (pipeline w)).
Proof.
  intros Hr.
  unfold pipeline, copyPublicFolder, build, onCompiled, settle.
  along_trace;
    match goal with
    | H : stats_of (compiler_run w) = Some _ |- _ =>
        rewrite Hr in H; discriminate H
    end.
Qed.

Lemma pipeline_noStatsWrite_stopped w :
  checkRequiredFiles w [appHtml (paths w); appIndexJs (paths w)] = true →
  reachesBuild w = false → Forall noStatsWrite (trace (pipeline w)).
Proof.
  unfold reachesBuild, pipeline, copyPublicFolder. intros -> H.
  destruct (checkBrowsers w); [repeat constructor |].
  destruct (measure_before w); [repeat constructor |].
  destruct (emptyDirSync w); [repeat constructor |].
  destruct (copySync w); [repeat constructor |].
  discriminate H.
Qed.

Lemma statsWrites_main_pipeline w :
  Forall noStatsWrite (trace (pipeline w)) →
  statsWrites (trace (main w)) = [].
Proof.
  intros Hp.
  destruct (checkRequiredFiles w [appHtml (paths w); appIndexJs (paths w)])
    eqn:Hfiles.
  - rewrite main_guard_passed by exact Hfiles.
    rewrite trace_prefixed. simpl. rewrite statsWrites_chain.
    by apply statsWrites_none.
  - rewrite main_guard_failed by exact Hfiles. reflexivity.
Qed.

(** C7, as the code has it: a stats file is asked for on no run without the
    write-stats flag, on no run that stops before [build], and on no run
    where the compiler answers with an error of its own.  When the compiler
    answers with statistics on a run that reaches [build], exactly one write
    is asked for, of [stats.toJson()] as it is, to [bundle-stats.json] in the
    build folder, if the flag is there and the result is classified Success;
    none if the result has an error or its warnings are escalated. *)
Theorem stats_written_on_success_with_flag w :
  (writeStatsJson w = false → statsWrites (trace (main w)) = [])
  ∧ (reachesBuild w = false → statsWrites (trace (main w)) = [])
  ∧ (∀ err, compiler_run w = inl err → statsWrites (trace (main w)) = [])
  ∧ (∀ st, compiler_run w = inr st → reachesBuild w = true →
       (writeStatsJson w = true →
        errors (formatWebpackMessages w (toJson_messages st)) = [] →
        treatWarningsAsErrors w = false
          ∨ warnings (formatWebpackMessages w (toJson_messages st)) = [] →
        statsWrites (trace (main w))
        = [(appBuild (paths w) ++ "/bundle-stats.json", toJson st)])
       ∧ (errors (formatWebpackMessages w (toJson_messages st)) ≠ [] →
          statsWrites (trace (main w)) = [])
       ∧ (errors (formatWebpackMessages w (toJson_messages st)) = [] →
          treatWarningsAsErrors w = true →
          warnings (formatWebpackMessages w (toJson_messages st)) ≠ [] →
          statsWrites (trace (main w)) = [])).
Proof.
  split; [| split; [| split]].
  - intros Hflag. apply statsWrites_main_pipeline.
    by apply pipeline_noStatsWrite.
  - intros Hreach.
    destruct (checkRequiredFiles w [appHtml (paths w); appIndexJs (paths w)])
      eqn:Hfiles.
    + apply statsWrites_main_pipeline.
      by apply pipeline_noStatsWrite_stopped.
    + rewrite main_guard_failed by exact Hfiles. reflexivity.
  - intros err Hr. apply statsWrites_main_pipeline.
    by apply (pipeline_noStatsWrite_transport w err).
  - intros st Hr Hreach.
    destruct (pipeline_reaches_build w Hreach) as (prev & Hprev & _).
    rewrite (statsWrites_main w prev Hreach Hprev).
    rewrite build_runs_compiler_once, trace_prefixed, Hr, onCompiled_stats.
    simpl. repeat split.
    + intros Hflag Herrs Hok. unfold settle. rewrite Hflag, Herrs. simpl.
      assert (Hnot : treatWarningsAsErrors w
                     && (0 <? length (warnings (formatWebpackMessages w
                                                  (toJson_messages st))))%nat
                     = false)
        by (destruct Hok as [-> | ->]; [reflexivity | apply andb_false_r]).
      rewrite Hnot.
      destruct (bfj_write w (bundleStatsPath w) (toJson st)); reflexivity.
    + intros Hne.
      destruct (errors (formatWebpackMessages w (toJson_messages st)))
        as [|e rest] eqn:Herrs; [congruence |].
      rewrite (settle_errors _ _ _ _ e rest Herrs). reflexivity.
    + intros Herrs Hci Hwarn. by apply settle_escalated.
Qed.

Lemma stats_written_on_success_with_flag_witness :
  let st := Sample.stats [] ["w1"] in
  statsWrites (trace (main (Sample.world ["--stats"] None None (inr st))))
  = [("/app/build/bundle-stats.json", toJson st)]
  ∧ statsWrites (trace (main (Sample.world [] None None (inr st)))) = []
  ∧ statsWrites
      (trace (main (Sample.world ["--stats"] None None (inl Sample.boom))))
    = [].
Proof.
  intros st. split; [| split].
  - refine (proj1 (proj2 (proj2 (proj2
              (stats_written_on_success_with_flag
                 (Sample.world ["--stats"] None None (inr st))))) st
              eq_refl eq_refl) eq_refl eq_refl _).
    left. reflexivity.
  - exact (proj1 (stats_written_on_success_with_flag
                    (Sample.world [] None None (inr st))) eq_refl).
  - exact (proj1 (proj2 (proj2
             (stats_written_on_success_with_flag
                (Sample.world ["--stats"] None None (inl Sample.boom)))))
             Sample.boom eq_refl).
Defined.

(** When the pipeline rejects: at the first of its four steps that throws,
    or when the promise of [build] is rejected. *)
Lemma pipeline_rejected w err :
  checkRequiredFiles w [appHtml (paths w); appIndexJs (paths w)] = true →
  result (pipeline w) = Rejected err
  ↔ checkBrowsers w = Some err
    ∨ (checkBrowsers w = None ∧ measure_before w = inl err)
    ∨ (checkBrowsers w = None ∧ (∃ prev, measure_before w = inr prev)
       ∧ emptyDirSync w = Some err)
    ∨ (checkBrowsers w = None ∧ (∃ prev, measure_before w = inr prev)
       ∧ emptyDirSync w = None ∧ copySync w = Some err)
    ∨ (reachesBuild w = true
       ∧ ∃ prev, measure_before w = inr prev
                 ∧ result (onCompiled w prev (compiler_run w)) = Rejected err).
Proof.
  intros Hfiles. unfold reachesBuild. rewrite Hfiles.
  unfold pipeline, copyPublicFolder.
  destruct (checkBrowsers w) as [e1|].
  { simpl. split.
    - intros [= <-]. by left.
    - intros [[= <-] | [[[=] _] | [[[=] _] | [[[=] _] | [[=] _]]]]].
      reflexivity. }
  destruct (measure_before w) as [e2|prev].
  { simpl. split.
    - intros [= <-]. right. left. by split.
    - intros [[=] | [[_ [= <-]] | [(_ & [p [=]] & _) | [(_ & [p [=]] & _)
                                                     | [[=] _]]]]].
      reflexivity. }
  destruct (emptyDirSync w) as [e3|].
  { simpl. split.
    - intros [= <-]. right. right. left. repeat split; by eauto.
    - intros [[=] | [[_ [=]] | [(_ & _ & [= <-]) | [(_ & _ & [=] & _)
                                                   | [[=] _]]]]].
      reflexivity. }
  destruct (copySync w) as [e4|].
  { simpl. split.
    - intros [= <-]. right. right. right. left. repeat split; by eauto.
    - intros [[=] | [[_ [=]] | [(_ & _ & [=]) | [(_ & _ & _ & [= <-])
                                                | [[=] _]]]]].
      reflexivity. }
  match goal with
  | |- result ?x = _ ↔ _ =>
      change x with (prefixed (preamble w) (build w prev))
  end.
  rewrite result_prefixed, build_runs_compiler_once, result_prefixed.
  split.
  - intros H. right. right. right. right. split; [reflexivity |].
    by exists prev.
  - intros [[=] | [[_ [=]] | [(_ & _ & [=]) | [(_ & _ & _ & [=])
                                              | (_ & p & [= <-] & H)]]]].
    exact H.
Qed.

(** C9, as the code has it: an exception thrown inside the fulfilment
    handler or the rejection handler reaches the top-level catch, which logs
    its message, or [Undefined error] when the message is missing or empty,
    and exits with 1.  A rejection that comes earlier (the browsers check,
    the measuring, the emptying or the copying throws, or the promise of
    [build] is rejected) is not caught there: the rejection handler receives
    it, reports it like a failed build and decides the exit code by
    TSC_COMPILE_ON_ERROR.  An exception thrown inside the callback given to
    the compiler is not a rejection of the promise of [build]: when the
    compiler answers with an error that has a message, the formatter hands
    back no error and the write-stats flag is there, [stats.toJson()] is
    called on no statistics, and neither handler nor the catch runs: the
    script logs nothing more and sets no exit code. *)
Theorem top_level_catch w err :
  checkRequiredFiles w [appHtml (paths w); appIndexJs (paths w)] = true →
  (result (handled w) = Rejected err →
     exitCode (main w) = Some 1
     ∧ trace (main w)
       = (Logged LInfo "Build server settings:"
                 [ASettings (argv w) (isInteractive w)]
          :: trace (handled w)
          ++ [Logged LError
                (match Js.message err with
                 | Some (String c s) => String c s
                 | _ => "Undefined error"
                 end) [AErr err]])%list)
  ∧ (checkBrowsers w = Some err
     ∨ (checkBrowsers w = None ∧ measure_before w = inl err)
     ∨ (checkBrowsers w = None ∧ (∃ prev, measure_before w = inr prev)
        ∧ emptyDirSync w = Some err)
     ∨ (checkBrowsers w = None ∧ (∃ prev, measure_before w = inr prev)
        ∧ emptyDirSync w = None ∧ copySync w = Some err)
     ∨ (reachesBuild w = true
        ∧ ∃ prev, measure_before w = inr prev
                  ∧ result (onCompiled w prev (compiler_run w))
                    = Rejected err) →
     printBuildError w err = None →
     result (pipeline w) = Rejected err
     ∧ trace (main w)
       = (Logged LInfo "Build server settings:"
                 [ASettings (argv w) (isInteractive w)]
          :: trace (pipeline w)
          ++ [if tscCompileOnError w then
                Logged LWarn
                  ("Compiled with the following type errors (you may want to check these before deploying your app):"
                     ++ Js.nl) []
              else Logged LError ("Failed to compile." ++ Js.nl) [];
              BuildErrorPrinted err])%list
     ∧ exitCode (main w) = Some (if tscCompileOnError w then 0 else 1))
  ∧ (reachesBuild w = true →
     ∀ failure, compiler_run w = inl failure →
       Js.truthy (Js.message failure) = true →
       errors (formatWebpackMessages w (rawMessages (inl failure))) = [] →
       treatWarningsAsErrors w = false
         ∨ warnings (formatWebpackMessages w (rawMessages (inl failure)))
           = [] →
       writeStatsJson w = true →
       (∃ e, result (pipeline w) = Escaped e)
       ∧ trace (main w)
         = (Logged LInfo "Build server settings:"
                   [ASettings (argv w) (isInteractive w)]
            :: trace (pipeline w))%list
       ∧ exitCode (main w) = None).
Proof.
  intros Hfiles. split; [| split].
  - intros Hrej. rewrite main_guard_passed by exact Hfiles.
    unfold chain, catch_. rewrite (then2_rejected _ err) by exact Hrej.
    rewrite onUncaught_exits. split; [reflexivity |].
    rewrite !trace_prefixed. simpl.
    destruct (Js.message err) as [[|c s]|]; reflexivity.
  - intros Hstep Hprint.
    apply (pipeline_rejected w err Hfiles) in Hstep.
    split; [exact Hstep |].
    rewrite main_guard_passed by exact Hfiles.
    rewrite (chain_rejected w err Hstep).
    rewrite !exitCode_prefixed, !trace_prefixed.
    destruct (tscCompileOnError w) eqn:Htsc.
    + rewrite (onFailed_tolerated w err Htsc Hprint). split; reflexivity.
    + rewrite (onFailed_fatal w err Htsc), Hprint. split; reflexivity.
  - intros Hreach failure Hr Hmsg Herrs Hok Hflag.
    destruct (pipeline_reaches_build w Hreach) as (prev & _ & Hp).
    assert (Hesc : ∃ e, result (pipeline w) = Escaped e).
    { rewrite Hp, result_prefixed, build_runs_compiler_once, result_prefixed.
      rewrite Hr, (onCompiled_error w prev failure Hmsg).
      remember (formatWebpackMessages w (rawMessages (inl failure)))
        as messages.
      unfold settle. rewrite Herrs, Hflag. simpl.
      replace (treatWarningsAsErrors w && _) with false
        by (destruct Hok as [-> | ->]; [reflexivity | by rewrite andb_false_r]).
      by eexists. }
    destruct Hesc as [e He]. split; [by exists e |].
    rewrite main_guard_passed by exact Hfiles.
    rewrite exitCode_prefixed, trace_prefixed.
    unfold chain, handled, catch_, then2.
    destruct (pipeline w) as [t r]. simpl in He. subst r.
    split; reflexivity.
Qed.

Lemma top_level_catch_witness :
  exitCode (main (Sample.world_report_throws Sample.silent)) = Some 1
  ∧ errorsLogged (trace (main (Sample.world_report_throws Sample.silent)))
    = ["Undefined error"]
  ∧ errorsLogged (trace (main (Sample.world_report_throws Sample.boom)))
    = ["boom"]
  ∧ exitCode (main (Sample.world_locked None Sample.eacces)) = Some 1
  ∧ errorsLogged (trace (main (Sample.world_locked None Sample.eacces)))
    = ["Failed to compile." ++ Js.nl]
  ∧ exitCode (main (Sample.world_mute ["--stats"] (inl Sample.boom))) = None.
Proof.
  destruct (proj1 (top_level_catch (Sample.world_report_throws Sample.silent)
                     Sample.silent eq_refl) eq_refl) as [Hexit Htrace].
  destruct (proj1 (top_level_catch (Sample.world_report_throws Sample.boom)
                     Sample.boom eq_refl) eq_refl) as [_ Htrace'].
  destruct (proj1 (proj2 (top_level_catch
                            (Sample.world_locked None Sample.eacces)
                            Sample.eacces eq_refl))
              (or_intror (or_intror (or_introl
                 (conj eq_refl (conj (ex_intro _ Sample.before eq_refl)
                                     eq_refl)))))
              eq_refl) as (_ & Htrace'' & Hexit'').
  destruct (proj2 (proj2 (top_level_catch
                            (Sample.world_mute ["--stats"] (inl Sample.boom))
                            Sample.boom eq_refl))
              eq_refl Sample.boom eq_refl eq_refl eq_refl
              (or_introl eq_refl) eq_refl) as (_ & _ & Hnone).
  split; [exact Hexit |].
  split; [rewrite Htrace; reflexivity |].
  split; [rewrite Htrace'; reflexivity |].
  split; [exact Hexit'' |].
  split; [rewrite Htrace''; reflexivity | exact Hnone].
Defined.

(** C10, as the code has it: with the flag, no error and no escalated
    warning, a failing stats write makes [build] reject with an [Error] made
    from the write's error.  The rejection handler then reports it: at error
    level, with exit code 1, unless TSC_COMPILE_ON_ERROR is [true]; at
    warning level when it is [true], and then the process ends with 0 if
    printing the error does not throw, with 1 if it does. *)
Theorem stats_write_failure_rejects w prev st e :
  compiler_run w = inr st →
  errors (formatWebpackMessages w (toJson_messages st)) = [] →
  treatWarningsAsErrors w = false
    ∨ warnings (formatWebpackMessages w (toJson_messages st)) = [] →
  writeStatsJson w = true →
  bfj_write w (bundleStatsPath w) (toJson st) = Some e →
  result (build w prev) = Rejected (Js.new_Error_of e)
  ∧ (reachesBuild w = true →
     (tscCompileOnError w = false →
        exitCode (main w) = Some 1
        ∧ ∃ before after,
            trace (main w)
            = (before
               ++ Logged LError ("Failed to compile." ++ Js.nl) []
               :: BuildErrorPrinted (Js.new_Error_of e) :: after)%list)
     ∧ (tscCompileOnError w = true →
        printBuildError w (Js.new_Error_of e) = None →
        exitCode (main w) = Some 0
        ∧ ∃ before,
            trace (main w)
            = (before
               ++ [Logged LWarn
                     ("Compiled with the following type errors (you may want to check these before deploying your app):"
                        ++ Js.nl) [];
                   BuildErrorPrinted (Js.new_Error_of e)])%list)
     ∧ (tscCompileOnError w = true →
        ∀ e', printBuildError w (Js.new_Error_of e) = Some e' →
              exitCode (main w) = Some 1
              ∧ ∃ before after,
                  trace (main w)
                  = (before
                     ++ Logged LWarn
                          ("Compiled with the following type errors (you may want to check these before deploying your app):"
                             ++ Js.nl) []
                     :: BuildErrorPrinted (Js.new_Error_of e)
                     :: after)%list)).
Proof.
  intros Hr Herrs Hok Hflag Hwrite.
  assert (Hb : ∀ prev', result (build w prev') = Rejected (Js.new_Error_of e)).
  { intros prev'.
    rewrite build_runs_compiler_once, result_prefixed, Hr, onCompiled_stats.
    unfold settle. rewrite Herrs, Hflag. simpl.
    replace (treatWarningsAsErrors w && _) with false
      by (destruct Hok as [-> | ->]; [reflexivity | by rewrite andb_false_r]).
    rewrite Hwrite. reflexivity. }
  split; [apply Hb |].
  intros Hreach.
  destruct (pipeline_reaches_build w Hreach) as (prev' & _ & Hp).
  rewrite main_guard_passed by (apply reachesBuild_guard, Hreach).
  rewrite (chain_rejected w (Js.new_Error_of e))
    by (rewrite Hp, result_prefixed; apply Hb).
  rewrite !exitCode_prefixed, !trace_prefixed.
  split; [| split].
  - intros Htsc. rewrite (onFailed_fatal w _ Htsc).
    destruct (printBuildError w (Js.new_Error_of e)) as [e'|].
    + split; [reflexivity |].
      eexists (_ :: trace (pipeline w)), _. simpl.
      rewrite <- ?app_assoc. reflexivity.
    + split; [reflexivity |].
      eexists (_ :: trace (pipeline w)), []. simpl.
      rewrite <- ?app_assoc. reflexivity.
  - intros Htsc Hprint. rewrite (onFailed_tolerated w _ Htsc Hprint).
    split; [reflexivity |].
    eexists (_ :: trace (pipeline w)). simpl.
    rewrite <- ?app_assoc. reflexivity.
  - intros Htsc e' Hprint. unfold onFailed, call. rewrite Htsc, Hprint.
    split; [reflexivity |].
    eexists (_ :: trace (pipeline w)), _. simpl.
    rewrite <- ?app_assoc. reflexivity.
Qed.

Lemma stats_write_failure_rejects_witness :
  let st := Sample.stats [] [] in
  let w := Sample.world_disk_full ["--stats"] None None (inr st)
             Sample.eacces in
  result (build w Sample.before) = Rejected (Js.new_Error_of Sample.eacces)
  ∧ exitCode (main w) = Some 1.
Proof.
  intros st w.
  destruct (stats_write_failure_rejects w Sample.before st Sample.eacces
              eq_refl eq_refl (or_introl eq_refl) eq_refl eq_refl)
    as [Hb Hm].
  split; [exact Hb |].
  apply (proj1 (Hm eq_refl)). reflexivity.
Defined.
